(** * Monitoreo de noticias de juventud: the ingestion pipeline of [scraper.py]

    A shallow embedding of the text helpers, the per-source scrapers, the
    Excel-backed store and the coordinator [ejecutar_scraping], followed by
    the properties of the written specification that they satisfy.

    Conventions.
    - A Python [str] is a list of Unicode code points ([list N]); [len] is
      [length], [in] is [str_in], slicing is [slice_hasta].
    - A dict literal with the six fixed keys is the record [Noticia]; a pandas
      row is a finite map from column label to cell, an absent key being NaN.
    - An uncaught exception is [None] in the option monad. *)

From Stdlib Require Import ZArith NArith Ascii String List Lia Permutation.
From stdpp Require Import gmap strings list fin_maps sorting.

Local Open Scope N_scope.

(** ** Python strings *)

Definition str : Type := list N.

(** Source literals are written as UTF-8 byte strings; [u8] decodes them to
    code points, so that [u8 "jóvenes"] has seven characters. *)
Fixpoint utf8_go (acc : N) (need : nat) (bs : list N) : str :=
  match bs with
  | [] => []
  | b :: r =>
    match need with
    | O =>
      if b <? 128 then b :: utf8_go 0 O r
      else if b <? 224 then utf8_go (b - 192) 1 r
      else if b <? 240 then utf8_go (b - 224) 2 r
      else utf8_go (b - 240) 3 r
    | S n =>
      let acc' := acc * 64 + (b - 128) in
      match n with
      | O => acc' :: utf8_go 0 O r
      | S _ => utf8_go acc' n r
      end
    end
  end.

Definition u8 (s : string) : str :=
  utf8_go 0 O (List.map N_of_ascii (list_ascii_of_string s)).

Definition SP : N := 32.

(** [Py_UNICODE_ISSPACE]: the characters matched by [\s] in a [str] pattern
    and removed by [str.strip()]. *)
Definition Py_UNICODE_ISSPACE (c : N) : bool :=
  ((9 <=? c) && (c <=? 13)) || ((28 <=? c) && (c <=? 32))
  || (c =? 133) || (c =? 160) || (c =? 5760)
  || ((8192 <=? c) && (c <=? 8202))
  || (c =? 8232) || (c =? 8233) || (c =? 8239) || (c =? 8287) || (c =? 12288).

(** [str.lower()], one character at a time.  Below U+0100 it moves A-Z and
    U+00C0-U+00DE (except the multiplication sign U+00D7) up by 32.  From
    U+0100 on, the five characters whose lower-casing contains a character
    below U+0100 are mapped as Python maps them (U+0130 to "i" followed by
    U+0307, U+0178 to U+00FF, U+1E9E to U+00DF, the Kelvin sign to "k", the
    Angstrom sign to U+00E5); every other character is left as it is, where
    Python gives one character from U+0100 on.  The substring tests below
    search for terms and keys written below U+0100, so they cannot tell the
    difference. *)
Definition lower_cp (c : N) : list N :=
  if ((65 <=? c) && (c <=? 90)) || ((192 <=? c) && (c <=? 222) && negb (c =? 215))
  then [c + 32]
  else if c =? 304 then [105; 775]
  else if c =? 376 then [255]
  else if c =? 7838 then [223]
  else if c =? 8490 then [107]
  else if c =? 8491 then [229]
  else [c].

Definition lower (s : str) : str := flat_map lower_cp s.

(** [s.startswith(p)] *)
Fixpoint startswith (p s : str) : bool :=
  match p, s with
  | [], _ => true
  | _ :: _, [] => false
  | a :: p', b :: s' => (a =? b) && startswith p' s'
  end.

(** [p in s] *)
Fixpoint str_in (p s : str) : bool :=
  startswith p s || match s with [] => false | _ :: s' => str_in p s' end.

(** Truthiness of an argument annotated [str]: [None] and [""] are falsy. *)
Definition truthy (texto : option str) : bool :=
  match texto with Some (_ :: _) => true | _ => false end.

(** ** limpiar_texto *)

(** [re.sub(r'\s+', ' ', s)]: a left-to-right scan; [en_racha] records that
    the previous character belonged to the whitespace run being replaced. *)
Fixpoint re_sub_espacios (en_racha : bool) (s : str) : str :=
  match s with
  | [] => []
  | c :: r =>
    if Py_UNICODE_ISSPACE c
    then (if en_racha then re_sub_espacios true r else SP :: re_sub_espacios true r)
    else c :: re_sub_espacios false r
  end.

Fixpoint lstrip (s : str) : str :=
  match s with
  | [] => []
  | c :: r => if Py_UNICODE_ISSPACE c then lstrip r else s
  end.

Fixpoint rstrip (s : str) : str :=
  match s with
  | [] => []
  | c :: r =>
    match rstrip r with
    | [] => if Py_UNICODE_ISSPACE c then [] else [c]
    | r' => c :: r'
    end
  end.

Definition strip (s : str) : str := rstrip (lstrip s).

Definition limpiar_texto (texto : option str) : str :=
  match texto with
  | Some (c :: r) => strip (re_sub_espacios false (c :: r))
  | _ => []
  end.

(** ** obtener_resumen *)

(** [s[:stop]] for an arbitrary Python [int]: a negative [stop] counts from
    the end. *)
Definition slice_hasta (s : str) (stop : Z) : str :=
  if (0 <=? stop)%Z then take (Z.to_nat stop) s
  else take (length s - Z.to_nat (- stop)) s.

(** The part of [s] before its last space, if it has one. *)
Fixpoint antes_del_ultimo_espacio (s : str) : option str :=
  match s with
  | [] => None
  | c :: r =>
    match antes_del_ultimo_espacio r with
    | Some t => Some (c :: t)
    | None => if c =? SP then Some [] else None
    end
  end.

(** [s.rsplit(' ', 1)[0]] *)
Definition rsplit1_cabeza (s : str) : str :=
  default s (antes_del_ultimo_espacio s).

Definition PUNTOS : str := Eval vm_compute in u8 "...".

Definition obtener_resumen (texto : option str) (max_chars : Z) : str :=
  let texto := limpiar_texto texto in
  if (Z.of_nat (length texto) <=? max_chars)%Z then texto
  else rsplit1_cabeza (slice_hasta texto max_chars) ++ PUNTOS.

(** The call with the default [max_chars=250]. *)
Definition obtener_resumen_250 (texto : option str) : str :=
  obtener_resumen texto 250.

(** ** config.py *)

Definition TERMINOS_JUVENTUD : list str :=
  List.map u8
    [ "juventud"; "jóvenes"; "jovenes"; "adolescentes"; "adolescencia";
      "menor de edad"; "menores de edad"; "pandillas"; "idipron";
      "plataformas juveniles"; "primera infancia"; "niños"; "niñas";
      "infancia"; "juvenil"; "juveniles"; "estudiantes"; "colegios";
      "escolar" ]%string.

(** The dict literal, as the list of its items in declaration order (the
    order in which [.items()] yields them). *)
Definition CIUDADES_COLOMBIA : list (str * str) :=
  List.map (fun kv : string * string => (u8 (fst kv), u8 (snd kv)))
    [ ("bogotá", "Bogotá"); ("bogota", "Bogotá");
      ("medellín", "Medellín"); ("medellin", "Medellín");
      ("cali", "Cali"); ("barranquilla", "Barranquilla");
      ("cartagena", "Cartagena"); ("bucaramanga", "Bucaramanga");
      ("pereira", "Pereira"); ("manizales", "Manizales");
      ("santa marta", "Santa Marta");
      ("ibagué", "Ibagué"); ("ibague", "Ibagué");
      ("cúcuta", "Cúcuta"); ("cucuta", "Cúcuta");
      ("villavicencio", "Villavicencio"); ("pasto", "Pasto");
      ("neiva", "Neiva"); ("armenia", "Armenia");
      ("montería", "Montería"); ("monteria", "Montería");
      ("valledupar", "Valledupar");
      ("popayán", "Popayán"); ("popayan", "Popayán");
      ("tunja", "Tunja"); ("sincelejo", "Sincelejo");
      ("florencia", "Florencia");
      ("quibdó", "Quibdó"); ("quibdo", "Quibdó");
      ("riohacha", "Riohacha"); ("yopal", "Yopal"); ("leticia", "Leticia");
      ("mocoa", "Mocoa"); ("arauca", "Arauca");
      ("mitú", "Mitú"); ("mitu", "Mitú");
      ("puerto carreño", "Puerto Carreño");
      ("san andrés", "San Andrés"); ("san andres", "San Andrés");
      ("inírida", "Inírida"); ("inirida", "Inírida");
      ("colombia", "Colombia") ]%string.

(** ** contiene_terminos_juventud *)

Definition contiene_terminos_juventud (texto : option str) : bool :=
  match texto with
  | Some (c :: r) =>
    let texto_lower := lower (c :: r) in
    existsb (fun termino => str_in (lower termino) texto_lower) TERMINOS_JUVENTUD
  | _ => false
  end.

(** ** detectar_ciudad *)

Definition SIN_IDENTIFICAR : str := Eval vm_compute in u8 "Sin identificar".
Definition COLOMBIA : str := Eval vm_compute in u8 "Colombia".
Definition colombia : str := Eval vm_compute in u8 "colombia".

(** The [for] loop over the items: it returns from the function at the first
    key found in the text whose name is not "Colombia". *)
Fixpoint buscar_ciudad (items : list (str * str)) (texto_lower : str) : option str :=
  match items with
  | [] => None
  | (ciudad_key, ciudad_nombre) :: resto =>
    if str_in ciudad_key texto_lower
    then (if bool_decide (ciudad_nombre ≠ COLOMBIA) then Some ciudad_nombre
          else buscar_ciudad resto texto_lower)
    else buscar_ciudad resto texto_lower
  end.

(** [detectar_ciudad] with the city table made explicit. *)
Definition detectar_ciudad_en (ciudades : list (str * str)) (texto : option str) : str :=
  match texto with
  | Some (c :: r) =>
    let texto_lower := lower (c :: r) in
    match buscar_ciudad ciudades texto_lower with
    | Some ciudad_nombre => ciudad_nombre
    | None => if str_in colombia texto_lower then COLOMBIA else SIN_IDENTIFICAR
    end
  | _ => SIN_IDENTIFICAR
  end.

Definition detectar_ciudad : option str -> str :=
  detectar_ciudad_en CIUDADES_COLOMBIA.

(** The policy in the words of the specification: the table restricted to its
    specific-city entries, the first of them found in the lower-cased text,
    then the generic match, then the sentinel.  Compared with
    [detectar_ciudad] below. *)
Definition especificas (ciudades : list (str * str)) : list (str * str) :=
  List.filter (fun kv => bool_decide (snd kv ≠ COLOMBIA)) ciudades.

Definition classify_spec (ciudades : list (str * str)) (texto_lower : str) : str :=
  match List.find (fun kv => str_in (fst kv) texto_lower) (especificas ciudades) with
  | Some kv => snd kv
  | None => if str_in colombia texto_lower then COLOMBIA else SIN_IDENTIFICAR
  end.

(** ** Frames *)

(** A pandas [DataFrame] of text cells.  A row maps a column label to its
    cell; a label without entry is NaN. *)
Record DataFrame : Type := {
  columns : list string;
  rows : list (gmap string str)
}.

(** ** The scrapers *)

(** What the traversal of one article container yields before the relevance
    filter: the [href] of its link, the stripped text of its title tag and of
    its first paragraph ([""] when there is none). *)
Inductive Contenedor : Type :=
| Roto
    (* a traversal primitive raises; [except Exception: continue] *)
| SinEnlace
    (* [art.find('a', href=True)] is [None]; [continue] *)
| Articulo (href titulo resumen : str).

(** The world outside one run: the date [datetime.now()] formats (one date
    for the whole run), what a GET of each URL gives ([None] when
    [requests.get] or [raise_for_status] raises, else the article containers
    that the scraper's selectors find in the page), [urllib.parse.urljoin],
    and what [df.to_excel(EXCEL_PATH, index=False)] makes of a frame: [None]
    when the write raises, else the frame that [pd.read_excel] reads from the
    workbook written.  Nothing is assumed of the last one: a workbook need
    not return the cells it was given. *)
Record Entorno : Type := {
  hoy : str;
  pagina : str -> option (list Contenedor);
  urljoin : str -> str -> str;
  to_excel : DataFrame -> option DataFrame
}.

(** The dict appended to [noticias]. *)
Record Noticia : Type := {
  fecha : str; titulo : str; fuente : str; ciudad : str; url : str; resumen : str
}.

#[global] Instance Noticia_eq_dec : EqDecision Noticia.
Proof. solve_decision. Defined.

(** What differs between the seven scraper functions once the selectors are
    behind [pagina]: the page fetched, the base of relative links, the name
    stored in [fuente], and the home city of Alerta Bogotá. *)
Record Fuente : Type := {
  nombre : str;
  seccion : str;
  base : str;
  ciudad_por_defecto : option str
}.

(** The response, or [None] after a [RequestException]. *)
Definition hacer_request (e : Entorno) (direccion : str) : option (list Contenedor) :=
  pagina e direccion.

Definition HTTP : str := Eval vm_compute in u8 "http".

Definition construir_noticia (e : Entorno) (f : Fuente) (href titulo resumen : str) : Noticia :=
  let href := if startswith HTTP href then href else urljoin e (base f) href in
  let texto_completo := titulo ++ SP :: resumen in
  let ciudad := detectar_ciudad (Some texto_completo) in
  let ciudad :=
    match ciudad_por_defecto f with
    | Some local => if bool_decide (ciudad = SIN_IDENTIFICAR) then local else ciudad
    | None => ciudad
    end in
  {| fecha := hoy e;
     titulo := limpiar_texto (Some titulo);
     fuente := nombre f;
     ciudad := ciudad;
     url := href;
     resumen := if truthy (Some resumen) then obtener_resumen_250 (Some resumen) else [] |}.

(** The body of [for art in articulos[:50]], threading the list [noticias]. *)
Fixpoint recorrer (e : Entorno) (f : Fuente) (articulos : list Contenedor)
    (noticias : list Noticia) : list Noticia :=
  match articulos with
  | [] => noticias
  | Articulo href titulo resumen :: resto =>
    if contiene_terminos_juventud (Some titulo) || contiene_terminos_juventud (Some resumen)
    then recorrer e f resto (noticias ++ [construir_noticia e f href titulo resumen])
    else recorrer e f resto noticias
  | _ :: resto => recorrer e f resto noticias
  end.

Definition scrape_fuente (f : Fuente) (e : Entorno) : list Noticia :=
  match hacer_request e (seccion f) with
  | None => []
  | Some articulos => recorrer e f (take 50 articulos) []
  end.

Definition BLU_RADIO : Fuente :=
  {| nombre := u8 "Blu Radio"; seccion := u8 "https://www.bluradio.com/nacion";
     base := u8 "https://www.bluradio.com"; ciudad_por_defecto := None |}.
Definition NOTICIAS_CARACOL : Fuente :=
  {| nombre := u8 "Noticias Caracol"; seccion := u8 "https://www.noticiascaracol.com/colombia";
     base := u8 "https://www.noticiascaracol.com"; ciudad_por_defecto := None |}.
Definition PULZO : Fuente :=
  {| nombre := u8 "Pulzo"; seccion := u8 "https://www.pulzo.com/nacion";
     base := u8 "https://www.pulzo.com"; ciudad_por_defecto := None |}.
Definition INFOBAE : Fuente :=
  {| nombre := u8 "Infobae"; seccion := u8 "https://www.infobae.com/colombia/";
     base := u8 "https://www.infobae.com"; ciudad_por_defecto := None |}.
Definition ALERTA_BOGOTA : Fuente :=
  {| nombre := u8 "Alerta Bogotá"; seccion := u8 "https://www.alertabogota.com/";
     base := u8 "https://www.alertabogota.com"; ciudad_por_defecto := Some (u8 "Bogotá") |}.
Definition RED_MAS : Fuente :=
  {| nombre := u8 "Red+"; seccion := u8 "https://redmas.com.co/";
     base := u8 "https://redmas.com.co"; ciudad_por_defecto := None |}.
Definition DIARIO_ADN : Fuente :=
  {| nombre := u8 "Diario ADN"; seccion := u8 "https://www.diarioadn.co/";
     base := u8 "https://www.diarioadn.co"; ciudad_por_defecto := None |}.

Definition scrape_bluradio : Entorno -> list Noticia := scrape_fuente BLU_RADIO.
Definition scrape_caracol : Entorno -> list Noticia := scrape_fuente NOTICIAS_CARACOL.
Definition scrape_pulzo : Entorno -> list Noticia := scrape_fuente PULZO.
Definition scrape_infobae : Entorno -> list Noticia := scrape_fuente INFOBAE.
Definition scrape_alertabogota : Entorno -> list Noticia := scrape_fuente ALERTA_BOGOTA.
Definition scrape_redmas : Entorno -> list Noticia := scrape_fuente RED_MAS.
Definition scrape_diarioadn : Entorno -> list Noticia := scrape_fuente DIARIO_ADN.

(** ** The pandas operations the store and the coordinator use *)

(** [pd.DataFrame(columns=cols)] *)
Definition DataFrame_vacio (cols : list string) : DataFrame :=
  {| columns := cols; rows := [] |}.

(** [df.empty] *)
Definition df_empty (df : DataFrame) : bool :=
  bool_decide (columns df = []) || bool_decide (rows df = []).

(** [df[c] = v] with a scalar [v] *)
Definition asignar_columna (c : string) (v : str) (df : DataFrame) : DataFrame :=
  {| columns := if bool_decide (c ∈ columns df) then columns df else columns df ++ [c];
     rows := (fun r => <[c := v]> r) <$> rows df |}.

(** [df[c].tolist()]; the label must exist ([KeyError] otherwise). *)
Definition columna (c : string) (df : DataFrame) : option (list (option str)) :=
  if bool_decide (c ∈ columns df) then Some ((fun r : gmap string str => r !! c) <$> rows df)
  else None.

Definition columnas : list string :=
  ["fecha"; "titulo"; "fuente"; "ciudad"; "url"; "resumen"]%string.

Definition fila_de_noticia (n : Noticia) : gmap string str :=
  <["fecha"%string := fecha n]> (<["titulo"%string := titulo n]> (<["fuente"%string := fuente n]>
  (<["ciudad"%string := ciudad n]> (<["url"%string := url n]> (<["resumen"%string := resumen n]> ∅))))).

(** [pd.DataFrame(nuevas_noticias)] for a non-empty list of the dicts built by
    the scrapers: the columns are their six keys in insertion order. *)
Definition DataFrame_de_noticias (l : list Noticia) : DataFrame :=
  {| columns := columnas; rows := fila_de_noticia <$> l |}.

(** [pd.concat([a, b], ignore_index=True)] *)
Definition pd_concat (a b : DataFrame) : DataFrame :=
  {| columns := columns a ++ List.filter (fun c => bool_decide (c ∉ columns a)) (columns b);
     rows := rows a ++ rows b |}.

(** Keep the first row for each value of column [c] (NaN cells count as equal
    to each other); [vistos] holds the values already met. *)
Fixpoint quitar_repetidos (c : string) (vistos : gset (option str))
    (l : list (gmap string str)) : list (gmap string str) :=
  match l with
  | [] => []
  | r :: resto =>
    if bool_decide (r !! c ∈ vistos) then quitar_repetidos c vistos resto
    else r :: quitar_repetidos c ({[r !! c]} ∪ vistos) resto
  end.

(** [df.drop_duplicates(subset=[c], keep='first')] *)
Definition drop_duplicates (c : string) (df : DataFrame) : option DataFrame :=
  if bool_decide (c ∈ columns df)
  then Some {| columns := columns df; rows := quitar_repetidos c ∅ (rows df) |}
  else None.

(** [a < b] on [str]: lexicographic on code points. *)
Fixpoint str_ltb (a b : str) : bool :=
  match a, b with
  | _, [] => false
  | [], _ :: _ => true
  | x :: a', y :: b' => (x <? y) || ((x =? y) && str_ltb a' b')
  end.

(** Whether a row with cell [x] may precede a row with cell [y] when sorting
    in descending order with NaN last. *)
Definition precede (x y : option str) : bool :=
  match x, y with
  | Some a, Some b => negb (str_ltb a b)
  | Some _, None => true
  | None, Some _ => false
  | None, None => true
  end.

Fixpoint insertar (c : string) (r : gmap string str) (l : list (gmap string str))
    : list (gmap string str) :=
  match l with
  | [] => [r]
  | x :: l' => if precede (r !! c) (x !! c) then r :: l else x :: insertar c r l'
  end.

Definition ordenar_desc (c : string) (l : list (gmap string str))
    : list (gmap string str) :=
  foldr (insertar c) [] l.

(** [df.sort_values(c, ascending=False)].  pandas leaves the order of rows
    with equal keys unspecified; this model keeps them in their order. *)
Definition sort_values_desc (c : string) (df : DataFrame) : option DataFrame :=
  if bool_decide (c ∈ columns df)
  then Some {| columns := columns df; rows := ordenar_desc c (rows df) |}
  else None.

(** The cells of a row under the labels [cols]. *)
Definition proyectar (cols : list string) (r : gmap string str) : gmap string str :=
  filter (fun kv : string * str => kv.1 ∈ cols) r.

(** [df[cols]] with a list of labels *)
Definition seleccionar (cols : list string) (df : DataFrame) : option DataFrame :=
  if forallb (fun c => bool_decide (c ∈ columns df)) cols
  then Some {| columns := cols; rows := proyectar cols <$> rows df |}
  else None.

(** ** The store *)

(** What is at [EXCEL_PATH]: nothing, a file [pd.read_excel] fails on, or a
    workbook that it reads as [df]. *)
Inductive Archivo : Type :=
| NoExiste
| Ilegible
| Libro (df : DataFrame).

Definition cargar_excel_existente (a : Archivo) : DataFrame :=
  match a with
  | Libro df =>
    if bool_decide ("ciudad"%string ∉ columns df)
    then asignar_columna "ciudad" SIN_IDENTIFICAR df
    else df
  | Ilegible => DataFrame_vacio columnas
  | NoExiste => DataFrame_vacio columnas
  end.

(** [df = df[columnas]] raises [KeyError] when a label is missing; the write
    is the environment's. *)
Definition guardar_excel (e : Entorno) (df : DataFrame) : option Archivo :=
  df ← seleccionar columnas df;
  leido ← to_excel e df;
  Some (Libro leido).

(** The writer of the examples: openpyxl behind [to_excel] and [read_excel],
    on cells of text.  A cell keeps its first 32767 characters; the write
    raises [IllegalCharacterError] when what is kept holds a control
    character other than tab, line feed and carriage return; an empty cell
    is read as NaN, any other cell as the text kept.  The other conversions
    of [read_excel] (the NA markers, columns of numbers or dates) are not
    described: no cell of the examples is subject to them. *)
Definition ILLEGAL_CHARACTERS (c : N) : bool :=
  (c <=? 8) || ((11 <=? c) && (c <=? 12)) || ((14 <=? c) && (c <=? 31)).

(** The longest text a cell holds. *)
Definition LARGO_MAXIMO : nat := N.to_nat 32767.

Definition celda_legal (s : str) : bool :=
  negb (existsb ILLEGAL_CHARACTERS (take LARGO_MAXIMO s)).

Definition check_string (s : str) : option str :=
  if celda_legal s then Some (take LARGO_MAXIMO s) else None.

Definition celda_leida (s : str) : option str :=
  match s with [] => None | _ :: _ => Some s end.

Definition fila_legal (cols : list string) (r : gmap string str) : bool :=
  forallb (fun c => match r !! c with Some s => celda_legal s | None => true end) cols.

Definition fila_leida (cols : list string) (r : gmap string str) : gmap string str :=
  omap (fun s : str => check_string s ≫= celda_leida) (proyectar cols r).

Definition excel_openpyxl (df : DataFrame) : option DataFrame :=
  if forallb (fila_legal (columns df)) (rows df)
  then Some {| columns := columns df; rows := fila_leida (columns df) <$> rows df |}
  else None.

(** ** ejecutar_scraping *)

Definition scrapers : list (Entorno -> list Noticia) :=
  [ scrape_bluradio; scrape_caracol; scrape_alertabogota; scrape_redmas;
    scrape_pulzo; scrape_infobae; scrape_diarioadn ].

(** The state the two nested loops share. *)
Record Acumulado : Type := {
  urls_existentes : gset str;
  nuevas_noticias : list Noticia
}.

(** One iteration of [for noticia in noticias]. *)
Definition admitir (st : Acumulado) (noticia : Noticia) : Acumulado :=
  if bool_decide (url noticia ∉ urls_existentes st)
  then {| urls_existentes := {[url noticia]} ∪ urls_existentes st;
          nuevas_noticias := nuevas_noticias st ++ [noticia] |}
  else st.

(** One iteration of [for nombre, scraper_func in scrapers]. *)
Definition ejecutar_scraper (e : Entorno) (st : Acumulado)
    (scraper_func : Entorno -> list Noticia) : Acumulado :=
  foldl admitir st (scraper_func e).

(** [set(df['url'].tolist())], as the set of the cells that are strings: a
    NaN cell is equal to no candidate url. *)
Definition urls_de (df : DataFrame) : option (gset str) :=
  celdas ← columna "url" df;
  Some (list_to_set (omap id celdas)).

(** What a run leaves behind and reports. *)
Record Resultado : Type := {
  archivo : Archivo;
  df_final : DataFrame;
  total_en_base : nat;
  nuevas_agregadas : nat
}.

(** Steps 1 to 3 of [ejecutar_scraping], up to [sort_values]: the frame
    [df_final] and the list [nuevas_noticias]. *)
Definition combinar (e : Entorno) (a : Archivo) : option (DataFrame * list Noticia) :=
  let df_existente := cargar_excel_existente a in
  urls ← (if df_empty df_existente then Some ∅ else urls_de df_existente);
  let st := foldl (ejecutar_scraper e)
              {| urls_existentes := urls; nuevas_noticias := [] |} scrapers in
  let df_final :=
    match nuevas_noticias st with
    | [] => df_existente
    | _ :: _ => pd_concat df_existente (DataFrame_de_noticias (nuevas_noticias st))
    end in
  df_final ← drop_duplicates "url" df_final;
  df_final ← sort_values_desc "fecha" df_final;
  Some (df_final, nuevas_noticias st).

(** Step 4 and the report, which is printed after the write only. *)
Definition ejecutar_scraping (e : Entorno) (a : Archivo) : option Resultado :=
  p ← combinar e a;
  a' ← guardar_excel e p.1;
  Some {| archivo := a'; df_final := p.1;
          total_en_base := length (rows p.1);
          nuevas_agregadas := length p.2 |}.

(** ** Vocabulary of the statements *)

(** The frame a run hands to [to_excel], when it gets that far. *)
Definition entrega (e : Entorno) (a : Archivo) : option DataFrame :=
  p ← combinar e a;
  seleccionar columnas p.1.

(** The url cells of a list of rows, in order. *)
Definition celdas_url (l : list (gmap string str)) : list (option str) :=
  (fun r : gmap string str => r !! "url"%string) <$> l.

(** [p] occurs in [s] as a contiguous substring. *)
Definition subcadena (p s : str) : Prop :=
  exists pre post, s = pre ++ p ++ post.

(** [p] occurs in [s] up to letter case. *)
Definition ocurre_sin_caja (p s : str) : Prop :=
  subcadena (lower p) (lower s).

(** Every whitespace character of [s] is U+0020 and none stands next to
    another ([tras_espacio]: nor next to the position before [s]). *)
Fixpoint sin_rachas (tras_espacio : bool) (s : str) : bool :=
  match s with
  | [] => true
  | c :: r =>
    if Py_UNICODE_ISSPACE c
    then (c =? SP) && negb tras_espacio && sin_rachas true r
    else sin_rachas false r
  end.

(** What one container contributes to [noticias]. *)
Definition aporte (e : Entorno) (f : Fuente) (art : Contenedor) : list Noticia :=
  match art with
  | Articulo href titulo resumen =>
    if contiene_terminos_juventud (Some titulo) || contiene_terminos_juventud (Some resumen)
    then [construir_noticia e f href titulo resumen]
    else []
  | _ => []
  end.

(** The two pages of the end-to-end scenarios: one relevant article with a
    relative link, one article without any term of the filter. *)
Definition entorno_escenarios : Entorno :=
  {| hoy := u8 "2024-05-01";
     pagina := fun direccion =>
       if bool_decide (direccion = seccion BLU_RADIO)
       then Some [ Articulo (u8 "/nota/1") (u8 "Jóvenes marchan en Bogotá")
                     (u8 "Cientos de jóvenes...") ]
       else if bool_decide (direccion = seccion ALERTA_BOGOTA)
       then Some [ Articulo (u8 "/a/3") (u8 "Niños sin cupo escolar") (u8 "") ]
       else Some [ Articulo (u8 "/nota/9") (u8 "Resultados del partido de fútbol")
                     (u8 "El equipo local ganó") ];
     urljoin := fun b h => b ++ h;
     to_excel := excel_openpyxl |}.

(** A page on which a term of the filter straddles title and summary. *)
Definition entorno_menor_de_edad : Entorno :=
  {| hoy := u8 "2024-05-01";
     pagina := fun _ =>
       Some [Articulo (u8 "/nota/7") (u8 "Capturan a un menor de") (u8 "edad en Cali")];
     urljoin := fun b h => b ++ h;
     to_excel := excel_openpyxl |}.

(** A workbook written before the city column existed. *)
Definition libro_antiguo : DataFrame :=
  {| columns := ["fecha"; "titulo"; "fuente"; "url"; "resumen"]%string;
     rows := [ <["fecha"%string := u8 "2023-11-02"]> (<["titulo"%string := u8 "Colegios en paro"]>
               (<["fuente"%string := u8 "Pulzo"]> (<["url"%string := u8 "https://www.pulzo.com/n/1"]>
               (<["resumen"%string := u8 "Estudiantes sin clase"]> ∅)))) ] |}.

(** The candidates of one run, in the order in which the coordinator meets
    them. *)
Definition candidatos (e : Entorno) : list Noticia :=
  flat_map (fun scraper_func : Entorno -> list Noticia => scraper_func e) scrapers.

(** The candidates that pass the known-url test, given the urls known so
    far. *)
Fixpoint nuevos (conocidas : gset str) (l : list Noticia) : list Noticia :=
  match l with
  | [] => []
  | n :: resto =>
    if bool_decide (url n ∉ conocidas) then n :: nuevos ({[url n]} ∪ conocidas) resto
    else nuevos conocidas resto
  end.

(** Row [r] stands at index [i] of [l] and no earlier row of [l] has its
    url. *)
Definition primera_aparicion (l : list (gmap string str)) (i : nat)
    (r : gmap string str) : Prop :=
  l !! i = Some r /\
  forall j r', (j < i)%nat -> l !! j = Some r' -> r' !! "url"%string <> r !! "url"%string.

(** The frame has the six columns of the store. *)
Definition esquema_completo (df : DataFrame) : Prop :=
  Forall (fun c => c ∈ columns df) columnas.

(** The same pages on another day. *)
Definition otro_dia (e : Entorno) (fecha_nueva : str) : Entorno :=
  {| hoy := fecha_nueva; pagina := pagina e; urljoin := urljoin e;
     to_excel := to_excel e |}.

(** Every request fails. *)
Definition sin_respuesta (e : Entorno) : Prop :=
  forall direccion, hacer_request e direccion = None.

(** A store with one record, and a day on which Blu Radio lists that url
    again next to a new one, and Pulzo lists the new one too. *)
Definition libro_ejemplo : DataFrame :=
  {| columns := columnas;
     rows := [ fila_de_noticia
                 {| fecha := u8 "2024-04-30"; titulo := u8 "Jóvenes marchan en Bogotá";
                    fuente := u8 "Blu Radio"; ciudad := u8 "Bogotá";
                    url := u8 "https://www.bluradio.com/nota/1";
                    resumen := u8 "Cientos de jóvenes" |} ] |}.

Definition entorno_ejemplo : Entorno :=
  {| hoy := u8 "2024-05-01";
     pagina := fun direccion =>
       if bool_decide (direccion = seccion BLU_RADIO)
       then Some [ Articulo (u8 "/nota/1") (u8 "Los jóvenes marcharon") (u8 "");
                   SinEnlace;
                   Articulo (u8 "/nota/2") (u8 "Paro en colegios de Cali") (u8 "Sin clases") ]
       else if bool_decide (direccion = seccion PULZO)
       then Some [ Articulo (u8 "https://www.bluradio.com/nota/2")
                     (u8 "Estudiantes sin clases") (u8 "") ]
       else None;
     urljoin := fun b h => b ++ h;
     to_excel := excel_openpyxl |}.

(** A store in which two records share a url, and a day without network. *)
Definition fila_a : gmap string str :=
  fila_de_noticia
    {| fecha := u8 "2024-04-30"; titulo := u8 "Jóvenes marchan";
       fuente := u8 "Pulzo"; ciudad := u8 "Cali";
       url := u8 "https://www.pulzo.com/n/9"; resumen := u8 "Marcha en Cali" |}.

Definition fila_b : gmap string str :=
  fila_de_noticia
    {| fecha := u8 "2024-04-29"; titulo := u8 "Marcha juvenil";
       fuente := u8 "Pulzo"; ciudad := u8 "Cali";
       url := u8 "https://www.pulzo.com/n/9"; resumen := u8 "Jóvenes en Cali" |}.

Definition libro_repetido : DataFrame :=
  {| columns := columnas; rows := [fila_a; fila_b] |}.

Definition entorno_caido : Entorno :=
  {| hoy := u8 "2024-05-01"; pagina := fun _ => None;
     urljoin := fun b h => b ++ h;
     to_excel := excel_openpyxl |}.

(** A url of 32767 characters, and a day on which Blu Radio lists two
    articles whose urls continue it in two ways. *)
Definition url_larga : str :=
  u8 "https://www.bluradio.com/" ++ replicate (N.to_nat 32742) 97.

Definition noticia_larga_1 : Noticia :=
  {| fecha := u8 "2024-05-01"; titulo := u8 "Jóvenes marchan"; fuente := u8 "Blu Radio";
     ciudad := u8 "Sin identificar"; url := url_larga ++ u8 "1";
     resumen := u8 "Cientos de jóvenes" |}.

Definition noticia_larga_2 : Noticia :=
  {| fecha := u8 "2024-05-01"; titulo := u8 "Paro de estudiantes"; fuente := u8 "Blu Radio";
     ciudad := u8 "Sin identificar"; url := url_larga ++ u8 "2";
     resumen := u8 "Sin clases" |}.

Definition entorno_urls_largas : Entorno :=
  {| hoy := u8 "2024-05-01";
     pagina := fun direccion =>
       if bool_decide (direccion = seccion BLU_RADIO)
       then Some [ Articulo (url_larga ++ u8 "1") (u8 "Jóvenes marchan")
                     (u8 "Cientos de jóvenes");
                   Articulo (url_larga ++ u8 "2") (u8 "Paro de estudiantes")
                     (u8 "Sin clases") ]
       else None;
     urljoin := fun b h => b ++ h;
     to_excel := excel_openpyxl |}.

(** The characters of [s] that are not whitespace, in order. *)
Definition sin_espacios (s : str) : str :=
  List.filter (fun c => negb (Py_UNICODE_ISSPACE c)) s.

(** The terms of [TERMINOS_JUVENTUD] that contain another term. *)
Definition terminos_redundantes : list str :=
  List.map u8 ["juveniles"; "plataformas juveniles"; "primera infancia"]%string.

(** The container has a link and its traversal does not raise. *)
Definition es_articulo (art : Contenedor) : bool :=
  match art with Articulo _ _ _ => true | _ => false end.

(** Row [r1] may stand before row [r2] in a frame sorted by date, most recent
    first: its date is not the smaller one, and a row without date stands
    last. *)
Definition fecha_no_anterior (r1 r2 : gmap string str) : Prop :=
  precede (r1 !! "fecha"%string) (r2 !! "fecha"%string) = true.

(** The record Blu Radio yields for the second article of [entorno_ejemplo]. *)
Definition noticia_ejemplo : Noticia :=
  construir_noticia entorno_ejemplo BLU_RADIO
    (u8 "/nota/2") (u8 "Paro en colegios de Cali") (u8 "Sin clases").

(** * Properties *)

Example u8_jovenes : u8 "jóvenes" = [106; 243; 118; 101; 110; 101; 115].
Proof. reflexivity. Qed.

Example limpiar_ej :
  limpiar_texto (Some (u8 "  hola   mundo ")) = u8 "hola mundo".
Proof. reflexivity. Qed.

Example resumen_ej :
  obtener_resumen (Some (u8 "uno dos tres")) 9 = u8 "uno dos...".
Proof. reflexivity. Qed.

Example ciudad_ej1 : detectar_ciudad (Some (u8 "Marcha en MEDELLÍN, Colombia")) = u8 "Medellín".
Proof. vm_compute. reflexivity. Qed.

Example ciudad_ej2 : detectar_ciudad (Some (u8 "bogotá medellín colombia")) = u8 "Bogotá".
Proof. vm_compute. reflexivity. Qed.

Example ciudad_ej3 : detectar_ciudad (Some (u8 "Noticias de Colombia")) = u8 "Colombia".
Proof. vm_compute. reflexivity. Qed.

Example ciudad_ej4 : detectar_ciudad (Some (u8 "calidad educativa")) = u8 "Cali".
Proof. vm_compute. reflexivity. Qed.

Example escenario_admitido :
  scrape_bluradio entorno_escenarios =
  [ {| fecha := u8 "2024-05-01"; titulo := u8 "Jóvenes marchan en Bogotá";
       fuente := u8 "Blu Radio"; ciudad := u8 "Bogotá";
       url := u8 "https://www.bluradio.com/nota/1";
       resumen := u8 "Cientos de jóvenes..." |} ].
Proof. vm_compute. reflexivity. Qed.

Example escenario_descartado : scrape_pulzo entorno_escenarios = [].
Proof. vm_compute. reflexivity. Qed.

Example escenario_ciudad_local :
  ciudad <$> scrape_alertabogota entorno_escenarios = [u8 "Bogotá"].
Proof. vm_compute. reflexivity. Qed.

Example resumen_ej2 :
  obtener_resumen (Some (u8 "Marcha  estudiantil en Cali")) 9 = u8 "Marcha..."
  /\ obtener_resumen (Some (u8 "Estudiantes marchan")) 5 = u8 "Estud...".
Proof. split; vm_compute; reflexivity. Qed.

Example relevante_ej : contiene_terminos_juventud (Some (u8 "Los nuevosESTUDIANTES")) = true.
Proof. vm_compute. reflexivity. Qed.

(** ** Substring search *)

Lemma startswith_spec (p s : str) :
  startswith p s = true <-> exists post, s = p ++ post.
Proof.
  revert s; induction p as [|a p IH]; intros s; simpl.
  - split; [intros _; by exists s | done].
  - destruct s as [|b s].
    + split; [done | intros [post H]; discriminate].
    + rewrite andb_true_iff, IH, N.eqb_eq. split.
      * intros [-> [post ->]]. by exists post.
      * intros [post H]. injection H as -> ->. split; [done | by exists post].
Qed.

Lemma str_in_spec (p s : str) : str_in p s = true <-> subcadena p s.
Proof.
  unfold subcadena. induction s as [|b s IH].
  - simpl. rewrite orb_false_r, startswith_spec. split.
    + intros [post H]. by exists [], post.
    + intros (pre & post & H). destruct pre as [|x pre]; [|discriminate].
      by exists post.
  - cbn [str_in]. rewrite orb_true_iff, startswith_spec, IH. split.
    + intros [[post H] | (pre & post & H)].
      * by exists [], post.
      * exists (b :: pre), post. by rewrite H.
    + intros (pre & post & H). destruct pre as [|x pre].
      * left. by exists post.
      * right. injection H as -> ->. by exists pre, post.
Qed.

Lemma str_in_false (p s : str) : str_in p s = false <-> ~ subcadena p s.
Proof. rewrite <- str_in_spec. by destruct (str_in p s). Qed.

Lemma lower_app (a b : str) : lower (a ++ b) = lower a ++ lower b.
Proof. apply List.flat_map_app. Qed.

Lemma lower_cp_no_vacio (c : N) : lower_cp c <> [].
Proof. unfold lower_cp. repeat case_match; discriminate. Qed.

Lemma lower_nil_inv (s : str) : lower s = [] -> s = [].
Proof.
  destruct s as [|c r]; [done |]. cbn. intros H.
  apply app_eq_nil in H as [H _]. by apply lower_cp_no_vacio in H.
Qed.

(** Without U+0130 in the text, lower-casing keeps positions, and occurring up
    to letter case is having a substring with the same lower-casing. *)
Lemma lower_cp_uno (c : N) : c <> 304 -> exists x, lower_cp c = [x].
Proof.
  intros Hc. unfold lower_cp. apply N.eqb_neq in Hc. rewrite Hc.
  repeat case_match; eauto.
Qed.

Lemma lower_app_inv (s a b : str) :
  304 ∉ s -> lower s = a ++ b ->
  exists s1 s2, s = s1 ++ s2 /\ lower s1 = a /\ lower s2 = b.
Proof.
  revert a; induction s as [|c r IH]; intros a Hs H.
  - cbn in H. symmetry in H. apply app_eq_nil in H as [-> ->]. by exists [], [].
  - apply not_elem_of_cons in Hs as [Hc Hr].
    destruct (lower_cp_uno c) as [x Hx]; [done |].
    cbn [lower flat_map] in H. rewrite Hx in H. fold (lower r) in H.
    destruct a as [|y a].
    + exists [], (c :: r). cbn [lower flat_map app]. by rewrite Hx.
    + cbn in H. injection H as <- H.
      destruct (IH a Hr H) as (s1 & s2 & -> & <- & <-).
      exists (c :: s1), s2. cbn [lower flat_map app]. by rewrite Hx.
Qed.

Lemma ocurre_sin_caja_subcadena (p s : str) :
  304 ∉ s ->
  ocurre_sin_caja p s <-> exists pre u post, s = pre ++ u ++ post /\ lower u = lower p.
Proof.
  intros Hs. unfold ocurre_sin_caja, subcadena. split.
  - intros (a & b & H).
    apply lower_app_inv in H as (s1 & s23 & -> & <- & H); [| done].
    apply lower_app_inv in H as (s2 & s3 & -> & H2 & <-); [| set_solver].
    by exists s1, s2, s3.
  - intros (pre & u & post & -> & Hu). exists (lower pre), (lower post).
    by rewrite !lower_app, Hu.
Qed.

(** ** contiene_terminos_juventud *)

Lemma terminos_no_vacios (termino : str) :
  In termino TERMINOS_JUVENTUD -> termino <> [].
Proof.
  intros Hin ->. revert Hin. vm_compute. intuition discriminate.
Qed.

Lemma contiene_spec (c : N) (r : str) :
  contiene_terminos_juventud (Some (c :: r)) = true <->
  exists termino, In termino TERMINOS_JUVENTUD /\ subcadena (lower termino) (lower (c :: r)).
Proof.
  unfold contiene_terminos_juventud. rewrite existsb_exists.
  split; intros (t & Hin & H); exists t; split; try done; by apply str_in_spec.
Qed.

(** C4. [contiene_terminos_juventud] answers [True] exactly for the texts in
    which some term of [TERMINOS_JUVENTUD] occurs as a substring up to letter
    case; for the empty string and for [None] it answers [False]. *)
Theorem contiene_terminos_juventud_iff (texto : str) :
  (contiene_terminos_juventud (Some texto) = true <->
   exists termino, In termino TERMINOS_JUVENTUD /\ ocurre_sin_caja termino texto)
  /\ contiene_terminos_juventud (Some []) = false
  /\ contiene_terminos_juventud None = false.
Proof.
  split; [|done]. destruct texto as [|c r].
  - split; [done |]. intros (t & Hin & pre & post & H).
    destruct pre; [|discriminate]. cbn in H. symmetry in H.
    apply app_eq_nil in H as [H _]. apply lower_nil_inv in H.
    by apply terminos_no_vacios in Hin.
  - apply contiene_spec.
Qed.

(** ** detectar_ciudad *)

Lemma buscar_ciudad_find (ciudades : list (str * str)) (tl : str) :
  buscar_ciudad ciudades tl =
  snd <$> List.find (fun kv => str_in (fst kv) tl) (especificas ciudades).
Proof.
  induction ciudades as [|[k v] resto IH]; [done |].
  cbn [buscar_ciudad especificas List.filter snd]. fold (especificas resto).
  destruct (bool_decide (v ≠ COLOMBIA)); cbn [List.find fst];
    destruct (str_in k tl); done.
Qed.

Lemma find_primero {A} (f : A -> bool) (pre post : list A) (x : A) :
  f x = true -> (forall y, In y pre -> f y = false) ->
  List.find f (pre ++ x :: post) = Some x.
Proof.
  intros Hx Hpre. induction pre as [|y pre IH]; simpl.
  - by rewrite Hx.
  - rewrite (Hpre y) by (by left). apply IH. intros z Hz. apply Hpre. by right.
Qed.

Lemma find_ninguno {A} (f : A -> bool) (l : list A) :
  (forall y, In y l -> f y = false) -> List.find f l = None.
Proof.
  intros H. induction l as [|y l IH]; [done |]. simpl.
  rewrite (H y) by (by left). apply IH. intros z Hz. apply H. by right.
Qed.

Lemma detectar_ciudad_classify (texto : str) :
  detectar_ciudad (Some texto) = classify_spec CIUDADES_COLOMBIA (lower texto).
Proof.
  destruct texto as [|c r]; [by vm_compute |].
  unfold detectar_ciudad, detectar_ciudad_en, classify_spec.
  rewrite buscar_ciudad_find.
  by destruct (List.find _ _).
Qed.

(** C2, as amended.  [detectar_ciudad] agrees with the declared policy: the
    name of the first specific-city key, in the order of the table, found in
    the lower-cased text; failing that "Colombia" when "colombia" is found;
    failing that the sentinel.  A text with both "medellín" and "colombia"
    gives "Medellín" provided neither "bogotá" nor "bogota", the two keys
    declared before it, is found. *)
Theorem detectar_ciudad_politica (texto : str) :
  detectar_ciudad (Some texto) = classify_spec CIUDADES_COLOMBIA (lower texto)
  /\ (forall pre k v post,
        especificas CIUDADES_COLOMBIA = pre ++ (k, v) :: post ->
        subcadena k (lower texto) ->
        (forall k' v', In (k', v') pre -> ~ subcadena k' (lower texto)) ->
        detectar_ciudad (Some texto) = v)
  /\ ((forall k v, In (k, v) (especificas CIUDADES_COLOMBIA) ->
                   ~ subcadena k (lower texto)) ->
      subcadena (u8 "colombia") (lower texto) ->
      detectar_ciudad (Some texto) = u8 "Colombia")
  /\ ((forall k v, In (k, v) (especificas CIUDADES_COLOMBIA) ->
                   ~ subcadena k (lower texto)) ->
      ~ subcadena (u8 "colombia") (lower texto) ->
      detectar_ciudad (Some texto) = u8 "Sin identificar")
  /\ (subcadena (u8 "medellín") (lower texto) ->
      subcadena (u8 "colombia") (lower texto) ->
      ~ subcadena (u8 "bogotá") (lower texto) ->
      ~ subcadena (u8 "bogota") (lower texto) ->
      detectar_ciudad (Some texto) = u8 "Medellín").
Proof.
  assert (Hprimero : forall pre k v post,
    especificas CIUDADES_COLOMBIA = pre ++ (k, v) :: post ->
    subcadena k (lower texto) ->
    (forall k' v', In (k', v') pre -> ~ subcadena k' (lower texto)) ->
    detectar_ciudad (Some texto) = v).
  { intros pre k v post Heq Hk Hpre.
    rewrite detectar_ciudad_classify. unfold classify_spec.
    rewrite Heq, (find_primero _ pre post (k, v)); [done | by apply str_in_spec |].
    intros [k' v'] Hin. apply str_in_false. by eapply Hpre. }
  assert (Hninguno :
    (forall k v, In (k, v) (especificas CIUDADES_COLOMBIA) ->
                 ~ subcadena k (lower texto)) ->
    detectar_ciudad (Some texto) =
    if str_in colombia (lower texto) then COLOMBIA else SIN_IDENTIFICAR).
  { intros Hno. rewrite detectar_ciudad_classify. unfold classify_spec.
    rewrite find_ninguno; [done |].
    intros [k v] Hin. apply str_in_false. by eapply Hno. }
  split; [apply detectar_ciudad_classify |].
  split; [exact Hprimero |].
  split; [| split].
  - intros Hno Hcol. rewrite (Hninguno Hno).
    apply str_in_spec in Hcol. change (u8 "colombia") with colombia in Hcol.
    by rewrite Hcol.
  - intros Hno Hcol. rewrite (Hninguno Hno).
    apply str_in_false in Hcol. change (u8 "colombia") with colombia in Hcol.
    by rewrite Hcol.
  - intros Hmed _ Hb1 Hb2.
    eapply (Hprimero [(u8 "bogotá", u8 "Bogotá"); (u8 "bogota", u8 "Bogotá")]
              (u8 "medellín") (u8 "Medellín")); [by vm_compute | done |].
    intros k' v' [H | [H | []]]; injection H as <- <-; done.
Qed.

Lemma detectar_ciudad_politica_testigo :
  subcadena (u8 "medellín") (lower (u8 "Marcha de jóvenes en Medellín, Colombia"))
  /\ subcadena (u8 "colombia") (lower (u8 "Marcha de jóvenes en Medellín, Colombia"))
  /\ ~ subcadena (u8 "bogotá") (lower (u8 "Marcha de jóvenes en Medellín, Colombia"))
  /\ ~ subcadena (u8 "bogota") (lower (u8 "Marcha de jóvenes en Medellín, Colombia"))
  /\ detectar_ciudad (Some (u8 "Marcha de jóvenes en Medellín, Colombia")) = u8 "Medellín".
Proof.
  assert (H1 : subcadena (u8 "medellín") (lower (u8 "Marcha de jóvenes en Medellín, Colombia")))
    by (apply str_in_spec; vm_compute; reflexivity).
  assert (H2 : subcadena (u8 "colombia") (lower (u8 "Marcha de jóvenes en Medellín, Colombia")))
    by (apply str_in_spec; vm_compute; reflexivity).
  assert (H3 : ~ subcadena (u8 "bogotá") (lower (u8 "Marcha de jóvenes en Medellín, Colombia")))
    by (apply str_in_false; vm_compute; reflexivity).
  assert (H4 : ~ subcadena (u8 "bogota") (lower (u8 "Marcha de jóvenes en Medellín, Colombia")))
    by (apply str_in_false; vm_compute; reflexivity).
  refine (conj H1 (conj H2 (conj H3 (conj H4 _)))).
  exact (proj2 (proj2 (proj2 (proj2
    (detectar_ciudad_politica (u8 "Marcha de jóvenes en Medellín, Colombia"))))) H1 H2 H3 H4).
Defined.

(** The claim as written fails: this text contains "medellín" and "colombia"
    and is classified "Bogotá". *)
Lemma detectar_ciudad_medellin_contraejemplo :
  subcadena (u8 "medellín") (lower (u8 "Jóvenes de Bogotá viajan a Medellín, Colombia"))
  /\ subcadena (u8 "colombia") (lower (u8 "Jóvenes de Bogotá viajan a Medellín, Colombia"))
  /\ detectar_ciudad (Some (u8 "Jóvenes de Bogotá viajan a Medellín, Colombia")) = u8 "Bogotá"
  /\ detectar_ciudad (Some (u8 "Jóvenes de Bogotá viajan a Medellín, Colombia")) <> u8 "Medellín".
Proof.
  split; [apply str_in_spec; vm_compute; reflexivity |].
  split; [apply str_in_spec; vm_compute; reflexivity |].
  split; [vm_compute; reflexivity | vm_compute; discriminate].
Qed.

(** C10. For [None] and for the empty string [detectar_ciudad] returns the
    sentinel "Sin identificar" at its first test, whatever the city table
    holds. *)
Theorem detectar_ciudad_sin_texto (ciudades : list (str * str)) :
  detectar_ciudad_en ciudades None = u8 "Sin identificar"
  /\ detectar_ciudad_en ciudades (Some []) = u8 "Sin identificar"
  /\ detectar_ciudad None = u8 "Sin identificar"
  /\ detectar_ciudad (Some []) = u8 "Sin identificar".
Proof. repeat split. Qed.

(** ** limpiar_texto *)

Lemma sin_rachas_re_sub (b : bool) (s : str) :
  sin_rachas b (re_sub_espacios b s) = true.
Proof.
  revert b; induction s as [|c r IH]; intros b; [done |].
  cbn [re_sub_espacios]. destruct (Py_UNICODE_ISSPACE c) eqn:Hc.
  - destruct b; [apply IH |]. cbn. apply IH.
  - cbn [sin_rachas]. rewrite Hc. apply IH.
Qed.

Lemma re_sub_sin_rachas (b : bool) (s : str) :
  sin_rachas b s = true -> re_sub_espacios b s = s.
Proof.
  revert b; induction s as [|c r IH]; intros b; [done |].
  cbn [sin_rachas re_sub_espacios]. destruct (Py_UNICODE_ISSPACE c).
  - rewrite !andb_true_iff, N.eqb_eq, negb_true_iff.
    intros [[-> ->] Hr]. by rewrite (IH _ Hr).
  - intros Hr. by rewrite (IH _ Hr).
Qed.

Lemma sin_rachas_relajar (s : str) :
  sin_rachas true s = true -> sin_rachas false s = true.
Proof.
  destruct s as [|c r]; [done |]. cbn [sin_rachas].
  destruct (Py_UNICODE_ISSPACE c); [|done].
  rewrite andb_false_r. discriminate.
Qed.

Lemma sin_rachas_lstrip (b : bool) (s : str) :
  sin_rachas b s = true -> sin_rachas false (lstrip s) = true.
Proof.
  revert b; induction s as [|c r IH]; intros b; [done |].
  cbn [sin_rachas lstrip]. destruct (Py_UNICODE_ISSPACE c) eqn:Hc.
  - rewrite !andb_true_iff. intros [_ Hr]. by eapply IH.
  - intros Hr. cbn [sin_rachas]. by rewrite Hc.
Qed.

Lemma sin_rachas_rstrip (b : bool) (s : str) :
  sin_rachas b s = true -> sin_rachas b (rstrip s) = true.
Proof.
  revert b; induction s as [|c r IH]; intros b; [done |].
  cbn [sin_rachas rstrip]. destruct (Py_UNICODE_ISSPACE c) eqn:Hc.
  - rewrite !andb_true_iff. intros [[Hsp Hb] Hr]. apply IH in Hr.
    destruct (rstrip r) as [|x r']; [done |].
    cbn [sin_rachas]. rewrite Hc. rewrite !andb_true_iff. done.
  - intros Hr. apply IH in Hr.
    destruct (rstrip r) as [|x r']; cbn [sin_rachas]; by rewrite Hc.
Qed.

Lemma lstrip_cabeza (s : str) :
  match lstrip s with [] => True | c :: _ => Py_UNICODE_ISSPACE c = false end.
Proof.
  induction s as [|c r IH]; [done |]. cbn [lstrip].
  by destruct (Py_UNICODE_ISSPACE c) eqn:Hc.
Qed.

Lemma rstrip_cabeza (c : N) (r : str) :
  Py_UNICODE_ISSPACE c = false -> exists r', rstrip (c :: r) = c :: r'.
Proof.
  intros Hc. cbn [rstrip]. rewrite Hc.
  destruct (rstrip r) as [|x r']; eauto.
Qed.

Lemma rstrip_idemp (s : str) : rstrip (rstrip s) = rstrip s.
Proof.
  induction s as [|c r IH]; [done |]. cbn [rstrip].
  destruct (rstrip r) as [|x r'] eqn:Hr.
  - destruct (Py_UNICODE_ISSPACE c) eqn:Hc; [done |]. cbn. by rewrite Hc.
  - cbn [rstrip] in *. by rewrite IH.
Qed.

Lemma strip_idemp (s : str) : strip (strip s) = strip s.
Proof.
  unfold strip. pose proof (lstrip_cabeza s) as Hc.
  destruct (lstrip s) as [|c r]; [done |].
  destruct (rstrip_cabeza c r Hc) as [r' Hr]. rewrite Hr.
  cbn [lstrip]. rewrite Hc, <- Hr. apply rstrip_idemp.
Qed.

Lemma lstrip_strip (s : str) : lstrip (strip s) = strip s.
Proof.
  unfold strip. pose proof (lstrip_cabeza s) as Hc.
  destruct (lstrip s) as [|c r]; [done |].
  destruct (rstrip_cabeza c r Hc) as [r' ->]. cbn [lstrip]. by rewrite Hc.
Qed.

Lemma limpiar_texto_sin_rachas (texto : option str) :
  sin_rachas false (limpiar_texto texto) = true.
Proof.
  destruct texto as [[|c r]|]; try done. unfold limpiar_texto, strip.
  apply sin_rachas_rstrip. eapply sin_rachas_lstrip, sin_rachas_re_sub.
Qed.

(** C7. [limpiar_texto] is idempotent.  Its result has no leading and no
    trailing whitespace, and its only whitespace characters are single
    spaces. *)
Theorem limpiar_texto_idempotente (texto : option str) :
  limpiar_texto (Some (limpiar_texto texto)) = limpiar_texto texto
  /\ lstrip (limpiar_texto texto) = limpiar_texto texto
  /\ rstrip (limpiar_texto texto) = limpiar_texto texto
  /\ sin_rachas false (limpiar_texto texto) = true.
Proof.
  pose proof (limpiar_texto_sin_rachas texto) as Hsr.
  assert (Hl : lstrip (limpiar_texto texto) = limpiar_texto texto).
  { destruct texto as [[|c r]|]; try done. apply lstrip_strip. }
  assert (Hr : rstrip (limpiar_texto texto) = limpiar_texto texto).
  { destruct texto as [[|c r]|]; try done. apply rstrip_idemp. }
  repeat split; try assumption.
  destruct (limpiar_texto texto) as [|c r] eqn:Hn; [done |].
  unfold limpiar_texto. rewrite (re_sub_sin_rachas _ _ Hsr).
  unfold strip. by rewrite Hl, Hr.
Qed.

(** ** obtener_resumen *)

Lemma antes_del_ultimo_espacio_Some (s t : str) :
  antes_del_ultimo_espacio s = Some t -> exists resto, s = t ++ SP :: resto.
Proof.
  revert t; induction s as [|c r IH]; intros t; [done |].
  cbn [antes_del_ultimo_espacio].
  destruct (antes_del_ultimo_espacio r) as [t'|].
  - intros [= <-]. destruct (IH t' eq_refl) as [resto ->]. by exists resto.
  - destruct (N.eqb_spec c SP) as [->|]; [|done]. intros [= <-]. by exists r.
Qed.

Lemma rsplit1_cabeza_prefijo (s : str) : rsplit1_cabeza s `prefix_of` s.
Proof.
  unfold rsplit1_cabeza.
  destruct (antes_del_ultimo_espacio s) as [t|] eqn:H; [|done].
  apply antes_del_ultimo_espacio_Some in H as [resto ->]. by eexists.
Qed.




(** ** The scrapers *)

Lemma recorrer_aporte (e : Entorno) (f : Fuente) (articulos : list Contenedor)
    (noticias : list Noticia) :
  recorrer e f articulos noticias = noticias ++ flat_map (aporte e f) articulos.
Proof.
  revert noticias; induction articulos as [|art resto IH]; intros noticias.
  - by rewrite app_nil_r.
  - destruct art as [| |href titulo resumen]; cbn [recorrer flat_map aporte]; try apply IH.
    destruct (_ || _); rewrite IH; [by rewrite <- app_assoc | done].
Qed.

Lemma scrape_fuente_aporte (f : Fuente) (e : Entorno) :
  scrape_fuente f e =
  match hacer_request e (seccion f) with
  | None => []
  | Some articulos => flat_map (aporte e f) (take 50 articulos)
  end.
Proof.
  unfold scrape_fuente. destruct (hacer_request e (seccion f)); [|done].
  by rewrite recorrer_aporte.
Qed.

Lemma subcadena_trans (a b c : str) : subcadena a b -> subcadena b c -> subcadena a c.
Proof.
  intros (p1 & q1 & ->) (p2 & q2 & ->). exists (p2 ++ p1), (q1 ++ q2).
  by rewrite <- !app_assoc.
Qed.

Lemma contiene_monotono (a b : str) :
  subcadena a b ->
  contiene_terminos_juventud (Some a) = true ->
  contiene_terminos_juventud (Some b) = true.
Proof.
  intros Hab Ha. destruct a as [|x a]; [done |].
  destruct b as [|y b].
  { destruct Hab as (pre & post & H). by destruct pre. }
  apply contiene_spec in Ha as (t & Hin & Ht). apply contiene_spec.
  exists t. split; [done |]. eapply subcadena_trans; [exact Ht |].
  destruct Hab as (pre & post & ->). exists (lower pre), (lower post).
  by rewrite !lower_app.
Qed.

(** C5, as amended.  A scraper keeps a container exactly when
    [contiene_terminos_juventud] holds of its title or of its summary, each
    tested on its own, among the first fifty containers of its page.  Every
    container kept is also relevant on the text "title summary", which is
    only used to detect the city. *)
Theorem admision_por_titulo_o_resumen (e : Entorno) (f : Fuente)
    (articulos : list Contenedor) :
  hacer_request e (seccion f) = Some articulos ->
  scrape_fuente f e =
    flat_map (fun art =>
      match art with
      | Articulo href titulo resumen =>
        if contiene_terminos_juventud (Some titulo)
           || contiene_terminos_juventud (Some resumen)
        then [construir_noticia e f href titulo resumen]
        else []
      | _ => []
      end) (take 50 articulos)
  /\ (forall titulo resumen,
        contiene_terminos_juventud (Some titulo)
        || contiene_terminos_juventud (Some resumen) = true ->
        contiene_terminos_juventud (Some (titulo ++ SP :: resumen)) = true).
Proof.
  intros Hpag. split.
  - rewrite scrape_fuente_aporte, Hpag. done.
  - intros titulo resumen H. apply orb_true_iff in H as [H | H].
    + eapply contiene_monotono; [|exact H]. by exists [], (SP :: resumen).
    + eapply contiene_monotono; [|exact H]. exists (titulo ++ [SP]), [].
      by rewrite app_nil_r, <- app_assoc.
Qed.

Lemma admision_por_titulo_o_resumen_testigo :
  hacer_request entorno_menor_de_edad (seccion BLU_RADIO)
    = Some [Articulo (u8 "/nota/7") (u8 "Capturan a un menor de") (u8 "edad en Cali")]
  /\ scrape_fuente BLU_RADIO entorno_menor_de_edad = [].
Proof.
  split; [reflexivity |].
  rewrite (proj1 (admision_por_titulo_o_resumen entorno_menor_de_edad BLU_RADIO _ eq_refl)).
  vm_compute. reflexivity.
Defined.

(** The claim as written fails: the text "title summary" of this container
    contains "menor de edad", yet the scraper drops it. *)
Lemma admision_concatenada_contraejemplo :
  contiene_terminos_juventud
    (Some (u8 "Capturan a un menor de" ++ SP :: u8 "edad en Cali")) = true
  /\ contiene_terminos_juventud (Some (u8 "Capturan a un menor de")) = false
  /\ contiene_terminos_juventud (Some (u8 "edad en Cali")) = false
  /\ scrape_bluradio entorno_menor_de_edad = [].
Proof. repeat split; vm_compute; reflexivity. Qed.

(** ** The store *)

(** C9. Reading a workbook without the column "ciudad" gives a frame with that
    column added, the same number of rows, the sentinel "Sin identificar" in
    that column of every row and every other cell as read; when no file
    exists (or the file cannot be read) the result is the empty frame with the
    six columns.  [cargar_excel_existente] returns a frame in every case. *)
Theorem cargar_excel_sin_ciudad (df : DataFrame) :
  "ciudad"%string ∉ columns df ->
  columns (cargar_excel_existente (Libro df)) = columns df ++ ["ciudad"%string]
  /\ length (rows (cargar_excel_existente (Libro df))) = length (rows df)
  /\ (forall r, r ∈ rows (cargar_excel_existente (Libro df)) ->
                r !! "ciudad"%string = Some (u8 "Sin identificar"))
  /\ (forall i r, rows df !! i = Some r ->
        exists r', rows (cargar_excel_existente (Libro df)) !! i = Some r'
                   /\ forall c, c <> "ciudad"%string -> r' !! c = r !! c)
  /\ cargar_excel_existente NoExiste = {| columns := columnas; rows := [] |}
  /\ cargar_excel_existente Ilegible = {| columns := columnas; rows := [] |}.
Proof.
  intros Hno. unfold cargar_excel_existente.
  rewrite (bool_decide_eq_true_2 _ Hno). unfold asignar_columna. cbn [columns rows].
  rewrite (bool_decide_eq_false_2 _ Hno).
  split; [done |]. split; [by rewrite length_fmap |]. split; [| split; [| done]].
  - intros r Hr. apply list_elem_of_fmap in Hr as (r0 & -> & _).
    by rewrite lookup_insert_eq.
  - intros i r Hi. exists (<["ciudad"%string := SIN_IDENTIFICAR]> r). split.
    + by rewrite list_lookup_fmap, Hi.
    + intros c Hc. by rewrite lookup_insert_ne.
Qed.

Lemma cargar_excel_sin_ciudad_testigo :
  ("ciudad"%string ∉ columns libro_antiguo)
  /\ (forall r, r ∈ rows (cargar_excel_existente (Libro libro_antiguo)) ->
                r !! "ciudad"%string = Some (u8 "Sin identificar")).
Proof.
  assert (H : "ciudad"%string ∉ columns libro_antiguo)
    by (apply (bool_decide_unpack _); vm_compute; exact I).
  exact (conj H (proj1 (proj2 (proj2 (cargar_excel_sin_ciudad libro_antiguo H))))).
Defined.

(** ** Rows and frames *)

Lemma fila_de_noticia_url (n : Noticia) :
  fila_de_noticia n !! "url"%string = Some (url n).
Proof. unfold fila_de_noticia. by simplify_map_eq. Qed.

Lemma proyectar_lookup (cols : list string) (r : gmap string str) (c : string) :
  c ∈ cols -> proyectar cols r !! c = r !! c.
Proof.
  intros Hc. unfold proyectar. apply option_eq. intros v.
  rewrite map_lookup_filter_Some. naive_solver.
Qed.

Lemma proyectar_url (r : gmap string str) :
  proyectar columnas r !! "url"%string = r !! "url"%string.
Proof. apply proyectar_lookup. unfold columnas. set_solver. Qed.

Lemma proyectar_idemp (cols : list string) (r : gmap string str) :
  proyectar cols (proyectar cols r) = proyectar cols r.
Proof.
  unfold proyectar. apply map_eq. intros c. apply option_eq. intros v.
  rewrite !map_lookup_filter_Some. naive_solver.
Qed.

Lemma proyectar_fmap_idemp (cols : list string) (l : list (gmap string str)) :
  proyectar cols <$> (proyectar cols <$> l) = proyectar cols <$> l.
Proof.
  rewrite <- list_fmap_compose. apply list_fmap_ext. intros ? r _. apply proyectar_idemp.
Qed.

Lemma insertar_perm (c : string) (r : gmap string str) (l : list (gmap string str)) :
  insertar c r l ≡ₚ r :: l.
Proof.
  induction l as [|x l IH]; [done |]. cbn [insertar].
  destruct (precede _ _); [done |]. rewrite IH. apply Permutation_swap.
Qed.

Lemma ordenar_desc_perm (c : string) (l : list (gmap string str)) :
  ordenar_desc c l ≡ₚ l.
Proof.
  unfold ordenar_desc. induction l as [|x l IH]; [done |].
  cbn [foldr]. by rewrite insertar_perm, IH.
Qed.

Lemma seleccionar_columnas (df : DataFrame) :
  esquema_completo df ->
  seleccionar columnas df =
  Some {| columns := columnas; rows := proyectar columnas <$> rows df |}.
Proof.
  intros H. unfold seleccionar.
  replace (forallb _ columnas) with true; [done |].
  symmetry. apply forallb_forall. intros c Hc. apply bool_decide_eq_true_2.
  unfold esquema_completo in H. rewrite Forall_forall in H. apply H.
  by apply list_elem_of_In.
Qed.

(** ** Keeping the first row of each url *)

Section quitar_repetidos.
Variable c : string.
Implicit Types (l : list (gmap string str)) (vistos : gset (option str)).

Lemma quitar_repetidos_app vistos l1 l2 :
  quitar_repetidos c vistos (l1 ++ l2) =
  quitar_repetidos c vistos l1
  ++ quitar_repetidos c (list_to_set ((fun r => r !! c) <$> l1) ∪ vistos) l2.
Proof.
  revert vistos; induction l1 as [|r l1 IH]; intros vistos.
  - cbn. f_equal. set_solver.
  - cbn [app quitar_repetidos]. case_bool_decide as Hr.
    + rewrite IH. do 2 f_equal. set_solver.
    + cbn [app]. rewrite IH. do 3 f_equal. set_solver.
Qed.

Lemma quitar_repetidos_elem vistos l r :
  r ∈ quitar_repetidos c vistos l -> r ∈ l /\ r !! c ∉ vistos.
Proof.
  revert vistos; induction l as [|x l IH]; intros vistos; [by intros ?%elem_of_nil |].
  cbn [quitar_repetidos]. case_bool_decide as Hx.
  - intros [? ?]%IH. set_solver.
  - intros [-> | [? ?]%IH]%elem_of_cons; set_solver.
Qed.

Lemma quitar_repetidos_NoDup vistos l :
  NoDup ((fun r => r !! c) <$> quitar_repetidos c vistos l).
Proof.
  revert vistos; induction l as [|x l IH]; intros vistos; [constructor |].
  cbn [quitar_repetidos]. case_bool_decide as Hx; [apply IH |].
  cbn [fmap list_fmap]. constructor; [| apply IH].
  intros (r & Heq & Hr)%list_elem_of_fmap.
  apply quitar_repetidos_elem in Hr as [_ Hr]. set_solver.
Qed.

Lemma quitar_repetidos_primera vistos l r :
  r ∈ quitar_repetidos c vistos l <->
  exists i, l !! i = Some r /\ (r !! c ∉ vistos) /\
    forall j r', (j < i)%nat -> l !! j = Some r' -> r' !! c <> r !! c.
Proof.
  revert vistos; induction l as [|x l IH]; intros vistos.
  - split; [by intros ?%elem_of_nil | by intros (i & ? & _)].
  - cbn [quitar_repetidos]. case_bool_decide as Hx.
    + rewrite IH. split.
      * intros (i & Hi & Hv & Hprev). exists (S i). split; [done |]. split; [done |].
        intros [|j] r' Hj Hr'; [| apply (Hprev j); [lia | done]].
        injection Hr' as <-. congruence.
      * intros ([|i] & Hi & Hv & Hprev).
        { injection Hi as <-. done. }
        exists i. split; [done |]. split; [done |].
        intros j r' Hj Hr'. apply (Hprev (S j)); [lia | done].
    + rewrite elem_of_cons, IH. split.
      * intros [-> | (i & Hi & Hv & Hprev)].
        { exists 0%nat. split; [done |]. split; [done |]. intros; lia. }
        exists (S i). split; [done |]. split; [set_solver |].
        intros [|j] r' Hj Hr'; [| apply (Hprev j); [lia | done]].
        injection Hr' as <-. set_solver.
      * intros ([|i] & Hi & Hv & Hprev).
        { injection Hi as <-. by left. }
        right. exists i. split; [done |]. split.
        { specialize (Hprev 0%nat x). set_solver by lia. }
        intros j r' Hj Hr'. apply (Hprev (S j)); [lia | done].
Qed.

Lemma quitar_repetidos_cubre vistos l r :
  r ∈ l -> r !! c ∈ vistos \/
           exists r', r' ∈ quitar_repetidos c vistos l /\ r' !! c = r !! c.
Proof.
  revert vistos; induction l as [|x l IH]; intros vistos; [by intros ?%elem_of_nil |].
  cbn [quitar_repetidos]. intros [-> | Hr]%elem_of_cons.
  - case_bool_decide; [by left |]. right. exists x. set_solver.
  - case_bool_decide as Hx.
    + apply IH, Hr.
    + destruct (IH ({[x !! c]} ∪ vistos) Hr) as [Hin | (r' & ? & ?)].
      * apply elem_of_union in Hin as [Hin | Hin]; [| by left].
        right. exists x. set_solver.
      * right. exists r'. set_solver.
Qed.

Lemma quitar_repetidos_id vistos l :
  NoDup ((fun r => r !! c) <$> l) ->
  (forall r, r ∈ l -> r !! c ∉ vistos) ->
  quitar_repetidos c vistos l = l.
Proof.
  revert vistos; induction l as [|x l IH]; intros vistos Hnd Hv; [done |].
  cbn [quitar_repetidos]. rewrite bool_decide_eq_false_2 by set_solver.
  apply NoDup_cons in Hnd as [Hx Hnd]. f_equal. apply IH; [done |].
  intros r Hr. apply not_elem_of_union. split; [| set_solver].
  intros Heq%elem_of_singleton. apply Hx, list_elem_of_fmap. by exists r.
Qed.
End quitar_repetidos.

(** ** The two loops of the coordinator *)

Lemma foldl_admitir (st : Acumulado) (l : list Noticia) :
  foldl admitir st l =
  {| urls_existentes := list_to_set (url <$> l) ∪ urls_existentes st;
     nuevas_noticias := nuevas_noticias st ++ nuevos (urls_existentes st) l |}.
Proof.
  revert st; induction l as [|n l IH]; intros [urls nuevas].
  - cbn. rewrite app_nil_r. f_equal. set_solver.
  - cbn [foldl nuevos]. rewrite IH. unfold admitir. cbn [urls_existentes nuevas_noticias].
    case_bool_decide as Hn; cbn [urls_existentes nuevas_noticias].
    + rewrite <- app_assoc. f_equal. set_solver.
    + f_equal. set_solver.
Qed.

Lemma foldl_flat_map {A B C} (f : A -> C -> A) (g : B -> list C) (a : A) (l : list B) :
  foldl (fun st x => foldl f st (g x)) a l = foldl f a (flat_map g l).
Proof.
  revert a; induction l as [|x l IH]; intros a; [done |].
  cbn [foldl flat_map]. by rewrite foldl_app, IH.
Qed.

Lemma ejecutar_scrapers (e : Entorno) (st : Acumulado) :
  foldl (ejecutar_scraper e) st scrapers = foldl admitir st (candidatos e).
Proof. unfold candidatos. by rewrite <- foldl_flat_map. Qed.

Lemma nuevos_conocidos (conocidas : gset str) (l : list Noticia) :
  (forall n, n ∈ l -> url n ∈ conocidas) -> nuevos conocidas l = [].
Proof.
  induction l as [|n l IH]; intros H; [done |]. cbn [nuevos].
  rewrite bool_decide_eq_false_2 by (intros Hn; apply Hn, H; by left).
  apply IH. intros m Hm. apply H. by right.
Qed.

(** The second pass does not see the first: dropping repeated urls after the
    known-url test gives what dropping them from all candidates gives. *)
Lemma quitar_repetidos_nuevos (conocidas : gset str) (vistos : gset (option str))
    (l : list Noticia) :
  (forall u, u ∈ conocidas -> Some u ∈ vistos) ->
  quitar_repetidos "url" vistos (fila_de_noticia <$> nuevos conocidas l) =
  quitar_repetidos "url" vistos (fila_de_noticia <$> l).
Proof.
  revert conocidas vistos; induction l as [|n l IH]; intros conocidas vistos H; [done |].
  cbn [nuevos fmap list_fmap quitar_repetidos]. rewrite fila_de_noticia_url.
  case_bool_decide as Hn.
  - cbn [fmap list_fmap quitar_repetidos]. rewrite fila_de_noticia_url.
    case_bool_decide as Hv.
    + apply IH. intros u [->%elem_of_singleton | Hu]%elem_of_union; auto.
    + f_equal. apply IH.
      intros u [->%elem_of_singleton | Hu]%elem_of_union; set_solver.
  - rewrite bool_decide_eq_true_2 by auto. by apply IH.
Qed.

Lemma urls_de_filas (df : DataFrame) :
  "url"%string ∈ columns df ->
  urls_de df = Some (list_to_set (omap (fun r : gmap string str => r !! "url"%string) (rows df))).
Proof.
  intros H. unfold urls_de, columna. rewrite bool_decide_eq_true_2 by done.
  cbn. do 2 f_equal. induction (rows df) as [|r l IH]; [done |].
  cbn. destruct (r !! "url"%string); cbn; by rewrite IH.
Qed.

Lemma urls_conocidas_vistas (l : list (gmap string str)) (u : str) :
  u ∈ (list_to_set (omap (fun r : gmap string str => r !! "url"%string) l) : gset str) ->
  Some u ∈ (list_to_set ((fun r : gmap string str => r !! "url"%string) <$> l) ∪ ∅
            : gset (option str)).
Proof.
  rewrite elem_of_list_to_set, list_elem_of_omap. intros (r & Hr & Hu).
  apply elem_of_union. left. apply elem_of_list_to_set, list_elem_of_fmap. by exists r.
Qed.

Lemma proyectar_id (cols : list string) (r : gmap string str) :
  (forall c, is_Some (r !! c) -> c ∈ cols) -> proyectar cols r = r.
Proof.
  intros H. unfold proyectar. apply map_eq. intros c. apply option_eq. intros v.
  rewrite map_lookup_filter_Some. split; [by intros [? _] |].
  intros Hv. split; [done |]. apply H. by exists v.
Qed.

Lemma proyectar_fmap_id (cols : list string) (l : list (gmap string str)) :
  (forall r c, r ∈ l -> is_Some (r !! c) -> c ∈ cols) -> proyectar cols <$> l = l.
Proof.
  intros H. induction l as [|r l IH]; [done |]. cbn [fmap list_fmap]. f_equal.
  - apply proyectar_id. intros c. apply H. by left.
  - apply IH. intros r' c Hr'. apply H. by right.
Qed.

Lemma fila_de_noticia_campos (n : Noticia) :
  fila_de_noticia n !! "fecha"%string = Some (fecha n)
  /\ fila_de_noticia n !! "titulo"%string = Some (titulo n)
  /\ fila_de_noticia n !! "fuente"%string = Some (fuente n)
  /\ fila_de_noticia n !! "ciudad"%string = Some (ciudad n)
  /\ fila_de_noticia n !! "url"%string = Some (url n)
  /\ fila_de_noticia n !! "resumen"%string = Some (resumen n)
  /\ (forall c, c ∉ columnas -> fila_de_noticia n !! c = None).
Proof.
  unfold fila_de_noticia. repeat split; try by simplify_map_eq.
  intros c Hc. unfold columnas in Hc.
  repeat (rewrite lookup_insert_ne by (intros <-; apply Hc; set_solver)).
  apply lookup_empty.
Qed.

Lemma proyectar_fila_de_noticia (n : Noticia) :
  proyectar columnas (fila_de_noticia n) = fila_de_noticia n.
Proof.
  apply proyectar_id. intros c [v Hv].
  destruct (decide (c ∈ columnas)) as [| Hc]; [done |].
  destruct (fila_de_noticia_campos n) as (_ & _ & _ & _ & _ & _ & H).
  rewrite (H c Hc) in Hv. discriminate.
Qed.

(** ** Sorting by date *)

Lemma str_ltb_asym (a b : str) : str_ltb a b = true -> str_ltb b a = false.
Proof.
  revert b; induction a as [|x a IH]; intros [|y b]; cbn [str_ltb]; try done.
  destruct (N.ltb_spec x y), (N.ltb_spec y x), (N.eqb_spec x y), (N.eqb_spec y x);
    cbn; try lia; try done.
  apply IH.
Qed.

Lemma str_ltb_cotrans (a b c : str) :
  str_ltb a b = false -> str_ltb b c = false -> str_ltb a c = false.
Proof.
  revert b c; induction a as [|x a IH]; intros [|y b] [|z c]; cbn [str_ltb]; try done.
  destruct (N.ltb_spec x y), (N.ltb_spec y z), (N.ltb_spec x z),
    (N.eqb_spec x y), (N.eqb_spec y z), (N.eqb_spec x z); cbn; try lia; try done.
  apply IH.
Qed.

Lemma precede_total (x y : option str) : precede x y = false -> precede y x = true.
Proof.
  destruct x as [a|], y as [b|]; cbn; try done.
  rewrite negb_false_iff, negb_true_iff. apply str_ltb_asym.
Qed.

Lemma precede_trans (x y z : option str) :
  precede x y = true -> precede y z = true -> precede x z = true.
Proof.
  destruct x as [a|], y as [b|], z as [c|]; cbn; try done.
  rewrite !negb_true_iff. apply str_ltb_cotrans.
Qed.

Lemma insertar_ordenado (r : gmap string str) (l : list (gmap string str)) :
  StronglySorted fecha_no_anterior l ->
  StronglySorted fecha_no_anterior (insertar "fecha" r l).
Proof.
  induction l as [|x l IH]; intros Hl; [repeat constructor |].
  apply StronglySorted_cons in Hl as [Hx Hl]. cbn [insertar].
  destruct (precede (r !! "fecha"%string) (x !! "fecha"%string)) eqn:Hrx.
  - apply StronglySorted_cons. split; [| by apply StronglySorted_cons].
    constructor; [done |]. eapply Forall_impl; [exact Hx |].
    intros y Hy. unfold fecha_no_anterior in *. by eapply precede_trans.
  - apply StronglySorted_cons. split; [| by apply IH].
    rewrite insertar_perm. constructor; [| done].
    by apply precede_total.
Qed.

Lemma ordenar_desc_ordenado (l : list (gmap string str)) :
  StronglySorted fecha_no_anterior (ordenar_desc "fecha" l).
Proof.
  unfold ordenar_desc. induction l as [|r l IH]; [constructor |].
  cbn [foldr]. by apply insertar_ordenado.
Qed.

Lemma proyectar_ordenado (l : list (gmap string str)) :
  StronglySorted fecha_no_anterior l ->
  StronglySorted fecha_no_anterior (proyectar columnas <$> l).
Proof.
  apply StronglySorted_fmap. intros r1 r2. unfold fecha_no_anterior.
  rewrite !(proyectar_lookup columnas _ "fecha") by (unfold columnas; set_solver). done.
Qed.

(** ** The writer of the examples *)

Lemma fila_leida_lookup (cols : list string) (r : gmap string str) (c : string) :
  c ∈ cols ->
  fila_leida cols r !! c = r !! c ≫= fun s => check_string s ≫= celda_leida.
Proof.
  intros Hc. unfold fila_leida. by rewrite lookup_omap, proyectar_lookup.
Qed.

Lemma fila_legal_spec (cols : list string) (r : gmap string str) :
  fila_legal cols r = true <->
  forall c s, c ∈ cols -> r !! c = Some s -> celda_legal s = true.
Proof.
  unfold fila_legal. rewrite forallb_forall. split.
  - intros H c s Hc Hs. apply list_elem_of_In, H in Hc. by rewrite Hs in Hc.
  - intros H c Hc. destruct (r !! c) as [s|] eqn:Hs; [| done].
    eapply H; [by apply list_elem_of_In | done].
Qed.

Lemma check_string_fijo (s s' : str) :
  check_string s = Some s' -> celda_legal s' = true.
Proof.
  unfold check_string. destruct (celda_legal s) eqn:Hs; [| discriminate].
  intros [= <-]. unfold celda_legal in *. by rewrite take_take, Nat.min_id.
Qed.

(** What the writer has returned it accepts. *)
Lemma fila_leida_legal (cols : list string) (r : gmap string str) :
  fila_legal cols (fila_leida cols r) = true.
Proof.
  apply fila_legal_spec. intros c s Hc. rewrite fila_leida_lookup by done.
  destruct (r !! c) as [s0|]; [| discriminate]. cbn [mbind option_bind].
  destruct (check_string s0) as [s1|] eqn:Hs1; [| discriminate]. cbn [mbind option_bind].
  destruct s1; [discriminate |]. intros [= <-]. by eapply check_string_fijo.
Qed.

Lemma fila_legal_proyectar (r : gmap string str) :
  fila_legal columnas (proyectar columnas r) = fila_legal columnas r.
Proof.
  apply eq_true_iff_eq. rewrite !fila_legal_spec.
  split; intros H c s Hc Hs; apply (H c s Hc); by rewrite proyectar_lookup in *.
Qed.

Lemma excel_openpyxl_legal (df : DataFrame) :
  (forall r, r ∈ rows df -> fila_legal (columns df) r = true) ->
  excel_openpyxl df =
  Some {| columns := columns df; rows := fila_leida (columns df) <$> rows df |}.
Proof.
  intros H. unfold excel_openpyxl.
  replace (forallb _ (rows df)) with true; [done |].
  symmetry. apply forallb_forall. intros r Hr. by apply H, list_elem_of_In.
Qed.

Lemma existsb_replicate {A : Type} (f : A -> bool) (n : nat) (x : A) :
  f x = false -> existsb f (replicate n x) = false.
Proof. intros H. induction n as [|n IH]; [done |]. cbn. by rewrite H. Qed.

Lemma length_url_larga : length url_larga = LARGO_MAXIMO.
Proof.
  unfold url_larga, LARGO_MAXIMO. rewrite length_app, length_replicate.
  change (length (u8 "https://www.bluradio.com/")) with (N.to_nat 25).
  rewrite <- N2Nat.inj_add. f_equal.
Qed.

Lemma url_larga_cortada (cola : str) :
  check_string (url_larga ++ cola) = Some url_larga.
Proof.
  unfold check_string, celda_legal.
  rewrite (take_app_length' url_larga cola) by (symmetry; apply length_url_larga).
  replace (existsb ILLEGAL_CHARACTERS url_larga) with false; [done |].
  symmetry. unfold url_larga. rewrite existsb_app.
  rewrite existsb_replicate by reflexivity.
  assert (H : existsb ILLEGAL_CHARACTERS (u8 "https://www.bluradio.com/") = false)
    by (vm_compute; reflexivity).
  by rewrite H.
Qed.

Opaque url_larga.

Lemma celda_leida_no_vacia (s : str) : length s <> 0%nat -> celda_leida s = Some s.
Proof. by destruct s. Qed.

Lemma celda_leida_url_larga : celda_leida url_larga = Some url_larga.
Proof.
  apply celda_leida_no_vacia. rewrite length_url_larga. unfold LARGO_MAXIMO. lia.
Qed.

Lemma app_no_fijo (u cola : str) : cola <> [] -> u ++ cola <> u.
Proof.
  intros Hc Heq. apply (f_equal length) in Heq. rewrite length_app in Heq.
  destruct cola; [done |]. cbn [length] in Heq. lia.
Qed.

Lemma urls_largas_distintas : url_larga ++ u8 "1" <> url_larga ++ u8 "2".
Proof. intros H. apply app_inv_head in H. discriminate. Qed.

Lemma fila_larga_legal (n : Noticia) (cola : str) :
  url n = url_larga ++ cola ->
  celda_legal (fecha n) = true -> celda_legal (titulo n) = true ->
  celda_legal (fuente n) = true -> celda_legal (ciudad n) = true ->
  celda_legal (resumen n) = true ->
  fila_legal columnas (fila_de_noticia n) = true.
Proof.
  intros Hu H1 H2 H3 H4 H5. apply fila_legal_spec. intros c s Hc Hs.
  assert (Hurl : celda_legal (url n) = true).
  { pose proof (url_larga_cortada cola) as H. rewrite <- Hu in H.
    unfold check_string in H. by destruct (celda_legal (url n)). }
  unfold columnas in Hc. unfold fila_de_noticia in Hs.
  repeat (apply elem_of_cons in Hc as [-> | Hc]); simplify_map_eq; try done.
  by apply elem_of_nil in Hc.
Qed.

Lemma fila_larga_leida (n : Noticia) (cola : str) :
  url n = url_larga ++ cola ->
  fila_leida columnas (fila_de_noticia n) !! "url"%string = Some url_larga.
Proof.
  intros Hu. rewrite fila_leida_lookup by (unfold columnas; set_solver).
  rewrite fila_de_noticia_url, Hu. cbn [mbind option_bind].
  rewrite url_larga_cortada. cbn [mbind option_bind].
  apply celda_leida_url_larga.
Qed.

Lemma candidatos_urls_largas :
  candidatos entorno_urls_largas = [noticia_larga_1; noticia_larga_2].
Proof. apply (bool_decide_unpack _). vm_compute. exact I. Qed.

Lemma noticias_largas_legales :
  fila_legal columnas (fila_de_noticia noticia_larga_1) = true
  /\ fila_legal columnas (fila_de_noticia noticia_larga_2) = true.
Proof.
  split.
  - apply (fila_larga_legal noticia_larga_1 (u8 "1")); [done | vm_compute; reflexivity ..].
  - apply (fila_larga_legal noticia_larga_2 (u8 "2")); [done | vm_compute; reflexivity ..].
Qed.

(** ** ejecutar_scraping *)

Lemma esquema_completo_elem (df : DataFrame) (c : string) :
  esquema_completo df -> c ∈ columnas -> c ∈ columns df.
Proof. unfold esquema_completo. rewrite Forall_forall. auto. Qed.

Lemma quitar_repetidos_dos_pasadas (existentes : list (gmap string str))
    (l : list Noticia) :
  quitar_repetidos "url" ∅
    (existentes ++ (fila_de_noticia <$>
       nuevos (list_to_set (omap (fun r : gmap string str => r !! "url"%string) existentes)) l)) =
  quitar_repetidos "url" ∅ (existentes ++ (fila_de_noticia <$> l)).
Proof.
  rewrite !quitar_repetidos_app. f_equal.
  apply quitar_repetidos_nuevos. intros u. apply urls_conocidas_vistas.
Qed.

(** What steps 1 to 3 compute when the loaded frame has the six columns. *)
Lemma combinar_forma (e : Entorno) (a : Archivo) :
  esquema_completo (cargar_excel_existente a) ->
  exists cols,
    (forall c, c ∈ columnas -> c ∈ cols)
    /\ combinar e a =
       Some ({| columns := cols;
                rows := ordenar_desc "fecha" (quitar_repetidos "url" ∅
                          (rows (cargar_excel_existente a)
                           ++ (fila_de_noticia <$> candidatos e))) |},
             nuevos
               (list_to_set (omap (fun r : gmap string str => r !! "url"%string)
                               (rows (cargar_excel_existente a))))
               (candidatos e)).
Proof.
  intros Hesq.
  set (df := cargar_excel_existente a) in *.
  set (conocidas := list_to_set (omap (fun r : gmap string str => r !! "url"%string) (rows df)) : gset str).
  set (N := nuevos conocidas (candidatos e)).
  set (df1 := match N with
              | [] => df
              | _ :: _ => pd_concat df (DataFrame_de_noticias N)
              end).
  assert (Hurl : "url"%string ∈ columns df)
    by (apply esquema_completo_elem; [done | unfold columnas; set_solver]).
  assert (Hfecha : "fecha"%string ∈ columns df)
    by (apply esquema_completo_elem; [done | unfold columnas; set_solver]).
  assert (Hrows : rows df1 = rows df ++ (fila_de_noticia <$> N)).
  { subst df1. destruct N; [by rewrite app_nil_r | done]. }
  assert (Hcols : forall c, c ∈ columns df -> c ∈ columns df1).
  { subst df1. destruct N; [done |]. intros c Hc. cbn. set_solver. }
  exists (columns df1). split.
  { intros c Hc. apply Hcols. by apply esquema_completo_elem. }
  unfold combinar. fold df.
  assert (Hurls : (if df_empty df then Some ∅ else urls_de df) = Some conocidas).
  { unfold df_empty. rewrite (bool_decide_eq_false_2 (columns df = []))
      by (intros Hc; rewrite Hc in Hurl; by apply elem_of_nil in Hurl).
    cbn [orb]. case_bool_decide as Hr; [| by apply urls_de_filas].
    subst conocidas. by rewrite Hr. }
  rewrite Hurls. cbn [mbind option_bind].
  rewrite ejecutar_scrapers, foldl_admitir. cbn [nuevas_noticias urls_existentes app].
  fold N. fold df1.
  rewrite <- (quitar_repetidos_dos_pasadas (rows df) (candidatos e)). fold conocidas. fold N.
  unfold drop_duplicates. rewrite bool_decide_eq_true_2 by auto.
  cbn [mbind option_bind]. unfold sort_values_desc. cbn [columns rows].
  rewrite bool_decide_eq_true_2 by auto. cbn [mbind option_bind].
  by rewrite Hrows.
Qed.

(** The frame handed to the writer when the loaded frame has the six
    columns. *)
Lemma entrega_forma (e : Entorno) (a : Archivo) :
  esquema_completo (cargar_excel_existente a) ->
  entrega e a =
  Some {| columns := columnas;
          rows := proyectar columnas <$>
            ordenar_desc "fecha" (quitar_repetidos "url" ∅
              (rows (cargar_excel_existente a) ++ (fila_de_noticia <$> candidatos e))) |}.
Proof.
  intros Hesq. destruct (combinar_forma e a Hesq) as (cols & Hcols & Hc).
  unfold entrega. rewrite Hc. cbn [mbind option_bind fst].
  rewrite seleccionar_columnas; [done |].
  unfold esquema_completo. apply Forall_forall. intros c Hc'. cbn [columns]. auto.
Qed.

(** A run completes exactly when the writer does not raise on the frame
    handed to it, and the file is what the writer made of that frame. *)
Lemma ejecutar_scraping_archivo (e : Entorno) (a : Archivo) (escrito : DataFrame) :
  entrega e a = Some escrito ->
  archivo <$> ejecutar_scraping e a = Libro <$> to_excel e escrito.
Proof.
  unfold entrega, ejecutar_scraping, guardar_excel.
  destruct (combinar e a) as [p|]; [| discriminate]. cbn [mbind option_bind].
  intros ->. cbn [mbind option_bind]. by destruct (to_excel e escrito).
Qed.

(** The report of a run that completes is that of steps 1 to 3. *)
Lemma ejecutar_scraping_cuentas (e : Entorno) (a : Archivo) (res : Resultado) :
  ejecutar_scraping e a = Some res ->
  exists df nuevas,
    combinar e a = Some (df, nuevas)
    /\ df_final res = df
    /\ total_en_base res = length (rows df)
    /\ nuevas_agregadas res = length nuevas.
Proof.
  unfold ejecutar_scraping. destruct (combinar e a) as [[df nuevas]|]; [| discriminate].
  cbn [mbind option_bind fst snd]. destruct (guardar_excel e df); [| discriminate].
  cbn [mbind option_bind]. intros [= <-]. by exists df, nuevas.
Qed.

Lemma ejecutar_scraping_completa (e : Entorno) (a : Archivo) (escrito leido : DataFrame) :
  entrega e a = Some escrito ->
  to_excel e escrito = Some leido ->
  exists res, ejecutar_scraping e a = Some res /\ archivo res = Libro leido.
Proof.
  intros Hent Hw. pose proof (ejecutar_scraping_archivo e a escrito Hent) as H.
  rewrite Hw in H. destruct (ejecutar_scraping e a) as [res|]; [| discriminate].
  exists res. split; [done |]. by injection H.
Qed.

Lemma primera_aparicion_app (l1 l2 : list (gmap string str)) (i : nat)
    (r : gmap string str) :
  primera_aparicion l1 i r -> primera_aparicion (l1 ++ l2) i r.
Proof.
  intros [Hi Hprev]. pose proof (lookup_lt_Some _ _ _ Hi) as Hlt. split.
  - by rewrite lookup_app_l.
  - intros j r' Hj Hr'. rewrite lookup_app_l in Hr' by lia. by eapply Hprev.
Qed.

Lemma quitar_repetidos_primera_aparicion (l : list (gmap string str))
    (r : gmap string str) :
  r ∈ quitar_repetidos "url" ∅ l <-> exists i, primera_aparicion l i r.
Proof.
  rewrite quitar_repetidos_primera. unfold primera_aparicion.
  split; intros (i & Hi & H); exists i.
  - by destruct H.
  - split; [done |]. split; [set_solver | done].
Qed.

Lemma claves_proyectadas (l : list (gmap string str)) :
  (fun r : gmap string str => r !! "url"%string) <$> (proyectar columnas <$> l) =
  (fun r : gmap string str => r !! "url"%string) <$> l.
Proof.
  rewrite <- list_fmap_compose. apply list_fmap_ext. intros ? r _. apply proyectar_url.
Qed.

(** C1, as amended.  For a store with the six columns and any pages, the
    frame the run hands to the writer has pairwise different urls; its rows
    are, column for column, the first row of each url in the loaded rows
    followed by the candidates of all sources in the order met, so that the
    first stored row of a url is handed back and no candidate takes its
    place.  The run completes exactly when the writer does not raise, the
    file is then what the writer made of that frame, and its urls are
    pairwise different whenever it holds the url cells it was given. *)
Theorem url_unica_gana_la_primera (e : Entorno) (a : Archivo) :
  esquema_completo (cargar_excel_existente a) ->
  exists escrito,
    entrega e a = Some escrito
    /\ NoDup (celdas_url (rows escrito))
    /\ (forall r, r ∈ rows escrito <->
          exists i r0,
            primera_aparicion
              (rows (cargar_excel_existente a) ++ (fila_de_noticia <$> candidatos e)) i r0
            /\ r = proyectar columnas r0)
    /\ (forall i r0,
          primera_aparicion (rows (cargar_excel_existente a)) i r0 ->
          proyectar columnas r0 ∈ rows escrito)
    /\ archivo <$> ejecutar_scraping e a = Libro <$> to_excel e escrito
    /\ (forall leido,
          to_excel e escrito = Some leido ->
          celdas_url (rows leido) = celdas_url (rows escrito) ->
          NoDup (celdas_url (rows leido))).
Proof.
  intros Hesq. pose proof (entrega_forma e a Hesq) as Hent.
  eexists. split; [exact Hent |]. cbn [rows].
  set (todas := rows (cargar_excel_existente a) ++ (fila_de_noticia <$> candidatos e)).
  assert (Hmem : forall r, r ∈ proyectar columnas <$> ordenar_desc "fecha" (quitar_repetidos "url" ∅ todas) <->
          exists i r0, primera_aparicion todas i r0 /\ r = proyectar columnas r0).
  { intros r. rewrite list_elem_of_fmap. setoid_rewrite ordenar_desc_perm.
    setoid_rewrite quitar_repetidos_primera_aparicion. naive_solver. }
  assert (Hnd : NoDup (celdas_url (proyectar columnas <$>
                         ordenar_desc "fecha" (quitar_repetidos "url" ∅ todas)))).
  { unfold celdas_url. rewrite claves_proyectadas, ordenar_desc_perm.
    apply quitar_repetidos_NoDup. }
  split; [exact Hnd |]. split; [exact Hmem |]. split; [| split].
  - intros i r0 Hprim. apply Hmem. exists i, r0. split; [| done].
    by apply primera_aparicion_app.
  - by apply ejecutar_scraping_archivo.
  - intros leido _ Heq. by rewrite Heq.
Qed.

Lemma url_unica_gana_la_primera_testigo :
  esquema_completo (cargar_excel_existente (Libro libro_ejemplo))
  /\ exists escrito,
       entrega entorno_ejemplo (Libro libro_ejemplo) = Some escrito
       /\ NoDup (celdas_url (rows escrito))
       /\ archivo <$> ejecutar_scraping entorno_ejemplo (Libro libro_ejemplo)
          = Libro <$> to_excel entorno_ejemplo escrito.
Proof.
  assert (Hesq : esquema_completo (cargar_excel_existente (Libro libro_ejemplo)))
    by (apply (bool_decide_unpack _); vm_compute; exact I).
  split; [exact Hesq |].
  destruct (url_unica_gana_la_primera entorno_ejemplo (Libro libro_ejemplo) Hesq)
    as (escrito & H1 & H2 & _ & _ & H5 & _).
  exists escrito. auto.
Defined.

Lemma entrega_urls_largas :
  entrega entorno_urls_largas NoExiste =
  Some {| columns := columnas;
          rows := [fila_de_noticia noticia_larga_1; fila_de_noticia noticia_larga_2] |}.
Proof.
  rewrite entrega_forma by (apply (bool_decide_unpack _); vm_compute; exact I).
  rewrite candidatos_urls_largas.
  change (rows (cargar_excel_existente NoExiste)) with (@nil (gmap string str)).
  cbn [app fmap list_fmap].
  rewrite quitar_repetidos_id.
  - unfold ordenar_desc. cbn [foldr insertar].
    assert (Hp : precede (fila_de_noticia noticia_larga_1 !! "fecha"%string)
                         (fila_de_noticia noticia_larga_2 !! "fecha"%string) = true)
      by (vm_compute; reflexivity).
    rewrite Hp. cbn [fmap list_fmap]. by rewrite !proyectar_fila_de_noticia.
  - cbn [fmap list_fmap]. rewrite !fila_de_noticia_url.
    cbn [url noticia_larga_1 noticia_larga_2].
    apply NoDup_cons. split; [| apply NoDup_singleton].
    intros H%list_elem_of_singleton. apply urls_largas_distintas. congruence.
  - intros r _. apply not_elem_of_empty.
Qed.

Lemma escritura_urls_largas :
  excel_openpyxl
    {| columns := columnas;
       rows := [fila_de_noticia noticia_larga_1; fila_de_noticia noticia_larga_2] |} =
  Some {| columns := columnas;
          rows := [fila_leida columnas (fila_de_noticia noticia_larga_1);
                   fila_leida columnas (fila_de_noticia noticia_larga_2)] |}.
Proof.
  rewrite excel_openpyxl_legal; [done |]. cbn [rows columns].
  destruct noticias_largas_legales as [H1 H2].
  intros r Hr. apply elem_of_cons in Hr as [-> | Hr]; [exact H1 |].
  apply list_elem_of_singleton in Hr as ->. exact H2.
Qed.

(** The claim as written fails: two candidates of one run whose urls differ
    after their character 32767 are both admitted, and the file holds two
    records with one url. *)
Lemma urls_largas_repetidas_en_el_archivo :
  url <$> candidatos entorno_urls_largas = [url_larga ++ u8 "1"; url_larga ++ u8 "2"]
  /\ url_larga ++ u8 "1" <> url_larga ++ u8 "2"
  /\ exists res leido,
       ejecutar_scraping entorno_urls_largas NoExiste = Some res
       /\ archivo res = Libro leido
       /\ celdas_url (rows leido) = [Some url_larga; Some url_larga].
Proof.
  split; [by rewrite candidatos_urls_largas |].
  split; [exact urls_largas_distintas |].
  destruct (ejecutar_scraping_completa entorno_urls_largas NoExiste _ _
              entrega_urls_largas escritura_urls_largas) as (res & Hrun & Harch).
  eexists _, _. split; [exact Hrun |]. split; [exact Harch |].
  cbn [rows celdas_url fmap list_fmap].
  by rewrite (fila_larga_leida noticia_larga_1 (u8 "1")),
             (fila_larga_leida noticia_larga_2 (u8 "2")).
Qed.

(** ** A second run on the same pages *)

Lemma aporte_otro_dia (e : Entorno) (f : Fuente) (h : str) (art : Contenedor) :
  url <$> aporte (otro_dia e h) f art = url <$> aporte e f art.
Proof.
  destruct art as [| |href titulo resumen]; cbn [aporte]; try done.
  by destruct (_ || _).
Qed.

Lemma scrape_fuente_otro_dia (f : Fuente) (e : Entorno) (h : str) :
  url <$> scrape_fuente f (otro_dia e h) = url <$> scrape_fuente f e.
Proof.
  rewrite !scrape_fuente_aporte. unfold hacer_request. cbn [pagina otro_dia].
  destruct (pagina e (seccion f)) as [articulos|]; [|done].
  induction (take 50 articulos) as [|art l IH]; [done |].
  cbn [flat_map]. by rewrite !fmap_app, IH, aporte_otro_dia.
Qed.

Lemma candidatos_otro_dia (e : Entorno) (h : str) :
  url <$> candidatos (otro_dia e h) = url <$> candidatos e.
Proof.
  unfold candidatos, scrapers, scrape_bluradio, scrape_caracol, scrape_alertabogota,
    scrape_redmas, scrape_pulzo, scrape_infobae, scrape_diarioadn.
  cbn [flat_map]. by rewrite !fmap_app, !scrape_fuente_otro_dia.
Qed.

Lemma nuevos_cubre (conocidas : gset str) (l : list Noticia) (n : Noticia) :
  n ∈ l -> url n ∈ conocidas \/ exists m, m ∈ nuevos conocidas l /\ url m = url n.
Proof.
  revert conocidas; induction l as [|x l IH]; intros conocidas; [by intros ?%elem_of_nil |].
  cbn [nuevos]. intros [-> | Hn]%elem_of_cons.
  - case_bool_decide; [| by left]. right. exists x. set_solver.
  - case_bool_decide as Hx.
    + destruct (IH ({[url x]} ∪ conocidas) Hn) as [Hin | (m & ? & ?)].
      * apply elem_of_union in Hin as [Hin%elem_of_singleton | Hin]; [| by left].
        right. exists x. set_solver.
      * right. exists m. set_solver.
    + apply IH, Hn.
Qed.

Lemma esquema_columnas (l : list (gmap string str)) :
  esquema_completo {| columns := columnas; rows := l |}.
Proof. unfold esquema_completo. apply Forall_forall. auto. Qed.

Lemma cargar_libro_columnas (l : list (gmap string str)) :
  cargar_excel_existente (Libro {| columns := columnas; rows := l |}) =
  {| columns := columnas; rows := l |}.
Proof.
  unfold cargar_excel_existente. rewrite bool_decide_eq_false_2; [done |].
  intros H. apply H. cbn. unfold columnas. set_solver.
Qed.

Lemma cargar_libro_esquema (df : DataFrame) :
  esquema_completo df -> cargar_excel_existente (Libro df) = df.
Proof.
  intros Hesq. unfold cargar_excel_existente. rewrite bool_decide_eq_false_2; [done |].
  intros H. apply H. apply esquema_completo_elem; [done |]. unfold columnas. set_solver.
Qed.

(** The frame a run hands to the writer, whatever the loaded frame was. *)
Lemma entrega_inv (e : Entorno) (a : Archivo) (escrito : DataFrame) :
  entrega e a = Some escrito ->
  exists conocidas : gset str,
    (forall u, u ∈ conocidas ->
       Some u ∈ celdas_url (rows (cargar_excel_existente a)))
    /\ escrito =
       {| columns := columnas;
          rows := proyectar columnas <$>
            ordenar_desc "fecha" (quitar_repetidos "url" ∅
              (rows (cargar_excel_existente a)
               ++ (fila_de_noticia <$> nuevos conocidas (candidatos e)))) |}.
Proof.
  unfold entrega, combinar. set (df := cargar_excel_existente a).
  destruct (if df_empty df then Some ∅ else urls_de df) as [conocidas|] eqn:Hurls;
    [| discriminate].
  cbn [mbind option_bind]. rewrite ejecutar_scrapers, foldl_admitir.
  cbn [nuevas_noticias urls_existentes app].
  set (N := nuevos conocidas (candidatos e)).
  set (df1 := match N with
              | [] => df
              | _ :: _ => pd_concat df (DataFrame_de_noticias N)
              end).
  assert (Hrows : rows df1 = rows df ++ (fila_de_noticia <$> N)).
  { subst df1. destruct N; [by rewrite app_nil_r | done]. }
  unfold drop_duplicates. case_bool_decide; [| discriminate].
  cbn [mbind option_bind]. unfold sort_values_desc. cbn [columns rows].
  case_bool_decide; [| discriminate]. cbn [mbind option_bind fst].
  unfold seleccionar. cbn [columns rows].
  destruct (forallb _ columnas); [| discriminate].
  intros [= <-]. exists conocidas. split; [| by rewrite Hrows].
  intros u Hu. unfold celdas_url. destruct (df_empty df).
  - injection Hurls as <-. by apply not_elem_of_empty in Hu.
  - unfold urls_de, columna in Hurls. case_bool_decide; [| discriminate].
    cbn in Hurls. injection Hurls as <-.
    apply elem_of_list_to_set, list_elem_of_omap in Hu as (o & Ho & Heq).
    cbn in Heq. by subst o.
Qed.

(** C6, as amended.  When a run has completed and its file is read with the
    six columns and with the url cells that were handed to the writer, a run
    on the same pages against that file (on any date) finds the url of every
    candidate among the urls read, admits no candidate, and hands to the
    writer the rows it read (their cells under the six columns), in some
    order.  It completes exactly when the writer does not raise, and then
    reports zero new records and as total the number of rows read. *)
Theorem segunda_ejecucion_sin_novedades (e : Entorno) (a : Archivo)
    (res1 : Resultado) (df1 escrito : DataFrame) (fecha_nueva : str) :
  ejecutar_scraping e a = Some res1 ->
  archivo res1 = Libro df1 ->
  entrega e a = Some escrito ->
  esquema_completo df1 ->
  celdas_url (rows df1) = celdas_url (rows escrito) ->
  exists df2 escrito2,
    (forall n, n ∈ candidatos (otro_dia e fecha_nueva) ->
       Some (url n) ∈ celdas_url (rows df1))
    /\ combinar (otro_dia e fecha_nueva) (Libro df1) = Some (df2, [])
    /\ entrega (otro_dia e fecha_nueva) (Libro df1) = Some escrito2
    /\ columns escrito2 = columnas
    /\ rows escrito2 ≡ₚ proyectar columnas <$> rows df1
    /\ archivo <$> ejecutar_scraping (otro_dia e fecha_nueva) (Libro df1)
       = Libro <$> to_excel e escrito2
    /\ (forall res2,
          ejecutar_scraping (otro_dia e fecha_nueva) (Libro df1) = Some res2 ->
          nuevas_agregadas res2 = 0%nat
          /\ total_en_base res2 = length (rows df1)).
Proof.
  intros _ _ Hent Hesq Hurls.
  destruct (entrega_inv e a escrito Hent) as (conocidas & Hcon & ->).
  cbn [rows] in Hurls.
  set (T := rows (cargar_excel_existente a)
            ++ (fila_de_noticia <$> nuevos conocidas (candidatos e))) in *.
  assert (Hclaves : celdas_url (rows df1) ≡ₚ celdas_url (quitar_repetidos "url" ∅ T)).
  { rewrite Hurls. unfold celdas_url. by rewrite claves_proyectadas, ordenar_desc_perm. }
  assert (Hcubre : forall n, n ∈ candidatos (otro_dia e fecha_nueva) ->
            Some (url n) ∈ celdas_url (rows df1)).
  { intros n2 Hn2. rewrite Hclaves.
    assert (Hu : url n2 ∈ url <$> candidatos e).
    { rewrite <- (candidatos_otro_dia e fecha_nueva). apply list_elem_of_fmap. eauto. }
    apply list_elem_of_fmap in Hu as (n & Heq & Hn). rewrite Heq.
    assert (HT : exists r, r ∈ T /\ r !! "url"%string = Some (url n)).
    { destruct (nuevos_cubre conocidas _ _ Hn) as [Hk | (m & Hm & Hmu)].
      - apply Hcon, list_elem_of_fmap in Hk as (r & Hr1 & Hr2).
        exists r. split; [apply elem_of_app; by left | done].
      - exists (fila_de_noticia m). split.
        + apply elem_of_app. right. apply list_elem_of_fmap. eauto.
        + by rewrite fila_de_noticia_url, Hmu. }
    destruct HT as (r & HrT & Hru).
    destruct (quitar_repetidos_cubre "url" ∅ T r HrT) as [Hin | (r' & Hr' & Heq')].
    { by apply not_elem_of_empty in Hin. }
    apply list_elem_of_fmap. exists r'. split; [congruence | done]. }
  assert (Hnuevos : nuevos (list_to_set (omap (fun r : gmap string str => r !! "url"%string)
                                           (rows df1)))
                      (candidatos (otro_dia e fecha_nueva)) = []).
  { apply nuevos_conocidos. intros n Hn. apply Hcubre in Hn.
    apply list_elem_of_fmap in Hn as (r & Hr1 & Hr2).
    apply elem_of_list_to_set, list_elem_of_omap. exists r. split; [done | by cbn]. }
  assert (Hfilas : quitar_repetidos "url" ∅
                     (rows df1 ++ (fila_de_noticia <$> candidatos (otro_dia e fecha_nueva)))
                   = rows df1).
  { rewrite <- (quitar_repetidos_dos_pasadas (rows df1)), Hnuevos. cbn [fmap list_fmap].
    rewrite app_nil_r. apply quitar_repetidos_id.
    - fold (celdas_url (rows df1)). rewrite Hclaves. apply quitar_repetidos_NoDup.
    - intros r _. apply not_elem_of_empty. }
  assert (Hesq2 : esquema_completo (cargar_excel_existente (Libro df1)))
    by (by rewrite cargar_libro_esquema).
  destruct (combinar_forma (otro_dia e fecha_nueva) (Libro df1) Hesq2) as (cols & _ & Hc).
  pose proof (entrega_forma (otro_dia e fecha_nueva) (Libro df1) Hesq2) as Hent2.
  rewrite (cargar_libro_esquema df1 Hesq) in Hc, Hent2.
  rewrite Hnuevos, Hfilas in Hc. rewrite Hfilas in Hent2.
  eexists _, _. split; [exact Hcubre |]. split; [exact Hc |]. split; [exact Hent2 |].
  cbn [columns rows]. split; [done |].
  split; [by rewrite ordenar_desc_perm |].
  split; [exact (ejecutar_scraping_archivo _ _ _ Hent2) |].
  intros res2 Hrun2.
  destruct (ejecutar_scraping_cuentas _ _ _ Hrun2) as (df & nuevas & Hc' & _ & Htot & Hnue).
  rewrite Hc in Hc'. injection Hc' as <- <-. rewrite Htot, Hnue. cbn [rows length].
  split; [done |]. by rewrite (Permutation_length (ordenar_desc_perm _ _)).
Qed.

Lemma segunda_ejecucion_sin_novedades_testigo :
  exists res1 df1 escrito,
    ejecutar_scraping entorno_ejemplo (Libro libro_ejemplo) = Some res1
    /\ archivo res1 = Libro df1
    /\ entrega entorno_ejemplo (Libro libro_ejemplo) = Some escrito
    /\ esquema_completo df1
    /\ celdas_url (rows df1) = celdas_url (rows escrito)
    /\ exists df2,
         combinar (otro_dia entorno_ejemplo (u8 "2024-05-02")) (Libro df1) = Some (df2, []).
Proof.
  assert (H : exists res1 df1 escrito,
    ejecutar_scraping entorno_ejemplo (Libro libro_ejemplo) = Some res1
    /\ archivo res1 = Libro df1
    /\ entrega entorno_ejemplo (Libro libro_ejemplo) = Some escrito
    /\ esquema_completo df1
    /\ celdas_url (rows df1) = celdas_url (rows escrito)).
  { eexists _, _, _. split; [vm_compute; reflexivity |]. split; [reflexivity |].
    split; [vm_compute; reflexivity |].
    split; [apply (bool_decide_unpack _); vm_compute; exact I | vm_compute; reflexivity]. }
  destruct H as (res1 & df1 & escrito & H1 & H2 & H3 & H4 & H5).
  exists res1, df1, escrito.
  refine (conj H1 (conj H2 (conj H3 (conj H4 (conj H5 _))))).
  destruct (segunda_ejecucion_sin_novedades entorno_ejemplo (Libro libro_ejemplo)
              res1 df1 escrito (u8 "2024-05-02") H1 H2 H3 H4 H5)
    as (df2 & escrito2 & _ & Hc & _).
  by exists df2.
Defined.

Lemma lectura_urls_largas :
  celdas_url [fila_leida columnas (fila_de_noticia noticia_larga_1);
              fila_leida columnas (fila_de_noticia noticia_larga_2)]
  = [Some url_larga; Some url_larga].
Proof.
  cbn [celdas_url fmap list_fmap].
  by rewrite (fila_larga_leida noticia_larga_1 (u8 "1")),
             (fila_larga_leida noticia_larga_2 (u8 "2")).
Qed.

(** The claim as written fails: a second run on the same pages and on the
    file of the first run admits again the two candidates whose urls the
    workbook has cut, and reports two new records. *)
Lemma segunda_ejecucion_urls_largas :
  exists res1 res2,
    ejecutar_scraping entorno_urls_largas NoExiste = Some res1
    /\ ejecutar_scraping entorno_urls_largas (archivo res1) = Some res2
    /\ nuevas_agregadas res2 = 2%nat.
Proof.
  destruct (ejecutar_scraping_completa entorno_urls_largas NoExiste _ _
              entrega_urls_largas escritura_urls_largas) as (res1 & Hrun & Harch).
  set (leidas := [fila_leida columnas (fila_de_noticia noticia_larga_1);
                  fila_leida columnas (fila_de_noticia noticia_larga_2)]) in *.
  set (leido := {| columns := columnas; rows := leidas |}) in *.
  assert (Hcarga : cargar_excel_existente (Libro leido) = leido)
    by apply cargar_libro_columnas.
  assert (Hesq : esquema_completo (cargar_excel_existente (Libro leido)))
    by (rewrite Hcarga; apply esquema_columnas).
  destruct (combinar_forma entorno_urls_largas (Libro leido) Hesq) as (cols & _ & Hc).
  pose proof (entrega_forma entorno_urls_largas (Libro leido) Hesq) as Hent.
  rewrite Hcarga in Hc, Hent. cbn [rows leido] in Hc, Hent.
  rewrite candidatos_urls_largas in Hc, Hent.
  set (conocidas := list_to_set (omap (fun r : gmap string str => r !! "url"%string) leidas)
                    : gset str) in *.
  assert (Hcon : forall u, u ∈ conocidas -> u = url_larga).
  { intros u Hu. apply elem_of_list_to_set, list_elem_of_omap in Hu as (r & Hr & Hru).
    assert (Hin : r !! "url"%string ∈ celdas_url leidas)
      by (apply list_elem_of_fmap; eauto).
    subst leidas. rewrite lectura_urls_largas in Hin. cbn in Hru. rewrite Hru in Hin.
    apply elem_of_cons in Hin as [[= ->] | Hin]; [done |].
    by apply list_elem_of_singleton in Hin as [= ->]. }
  assert (Hnuevos : nuevos conocidas [noticia_larga_1; noticia_larga_2]
                    = [noticia_larga_1; noticia_larga_2]).
  { cbn [nuevos]. cbn [url noticia_larga_1 noticia_larga_2].
    rewrite bool_decide_eq_true_2.
    2: { intros Hu%Hcon. by apply (app_no_fijo url_larga (u8 "1")). }
    rewrite bool_decide_eq_true_2; [done |].
    intros [Hu%elem_of_singleton | Hu%Hcon]%elem_of_union.
    - apply urls_largas_distintas. congruence.
    - by apply (app_no_fijo url_larga (u8 "2")). }
  rewrite Hnuevos in Hc.
  match type of Hent with _ = Some ?d => set (escrito2 := d) in * end.
  assert (Hlegal : forall r, r ∈ rows escrito2 -> fila_legal (columns escrito2) r = true).
  { subst escrito2. cbn [rows columns]. intros r (r0 & -> & Hr0)%list_elem_of_fmap.
    rewrite fila_legal_proyectar. rewrite ordenar_desc_perm in Hr0.
    apply quitar_repetidos_elem in Hr0 as [Hr0 _].
    destruct noticias_largas_legales as [HL1 HL2].
    apply elem_of_app in Hr0 as [Hr0 | Hr0].
    - subst leidas. apply elem_of_cons in Hr0 as [-> | Hr0]; [apply fila_leida_legal |].
      apply list_elem_of_singleton in Hr0 as ->. apply fila_leida_legal.
    - cbn [fmap list_fmap] in Hr0. apply elem_of_cons in Hr0 as [-> | Hr0]; [exact HL1 |].
      apply list_elem_of_singleton in Hr0 as ->. exact HL2. }
  destruct (ejecutar_scraping_completa entorno_urls_largas (Libro leido) escrito2 _
              Hent (excel_openpyxl_legal escrito2 Hlegal)) as (res2 & Hrun2 & _).
  exists res1, res2. split; [exact Hrun |]. split; [by rewrite Harch |].
  destruct (ejecutar_scraping_cuentas _ _ _ Hrun2) as (df & nuevas & Hc' & _ & _ & Hnue).
  rewrite Hc in Hc'. injection Hc' as <- <-. by rewrite Hnue.
Qed.

(** ** A run without network *)

Lemma scrape_fuente_sin_respuesta (f : Fuente) (e : Entorno) :
  sin_respuesta e -> scrape_fuente f e = [].
Proof. intros H. unfold scrape_fuente. by rewrite H. Qed.

Lemma candidatos_sin_respuesta (e : Entorno) : sin_respuesta e -> candidatos e = [].
Proof.
  intros H. unfold candidatos, scrapers, scrape_bluradio, scrape_caracol,
    scrape_alertabogota, scrape_redmas, scrape_pulzo, scrape_infobae, scrape_diarioadn.
  cbn [flat_map]. by rewrite !scrape_fuente_sin_respuesta.
Qed.

(** C8, as amended.  When every request fails and the loaded frame has the
    six columns, steps 1 to 3 admit no record, and the frame handed to the
    writer holds, under the six columns and in descending order of date, the
    first loaded row of each url.  When no two loaded rows share a url these
    are all the loaded rows, and they are the loaded rows themselves when
    these have no cell outside the six columns.  The run completes exactly
    when the writer does not raise, the file is then what the writer made of
    that frame, and the report gives zero new records and the number of rows
    handed over. *)
Theorem sin_fuentes_se_reescribe (e : Entorno) (a : Archivo) :
  sin_respuesta e ->
  esquema_completo (cargar_excel_existente a) ->
  exists df escrito,
    combinar e a = Some (df, [])
    /\ entrega e a = Some escrito
    /\ columns escrito = columnas
    /\ StronglySorted fecha_no_anterior (rows escrito)
    /\ (forall r, r ∈ rows escrito <->
          exists i r0,
            primera_aparicion (rows (cargar_excel_existente a)) i r0
            /\ r = proyectar columnas r0)
    /\ rows escrito ≡ₚ proyectar columnas <$>
                        quitar_repetidos "url" ∅ (rows (cargar_excel_existente a))
    /\ (NoDup (celdas_url (rows (cargar_excel_existente a))) ->
        rows escrito ≡ₚ proyectar columnas <$> rows (cargar_excel_existente a))
    /\ (NoDup (celdas_url (rows (cargar_excel_existente a))) ->
        (forall r c, r ∈ rows (cargar_excel_existente a) ->
                     is_Some (r !! c) -> c ∈ columnas) ->
        rows escrito ≡ₚ rows (cargar_excel_existente a))
    /\ archivo <$> ejecutar_scraping e a = Libro <$> to_excel e escrito
    /\ (forall res,
          ejecutar_scraping e a = Some res ->
          nuevas_agregadas res = 0%nat
          /\ total_en_base res = length (rows escrito)).
Proof.
  intros Hsin Hesq. destruct (combinar_forma e a Hesq) as (cols & _ & Hc).
  pose proof (entrega_forma e a Hesq) as Hent.
  rewrite (candidatos_sin_respuesta e Hsin) in Hc, Hent.
  cbn [fmap list_fmap nuevos] in Hc, Hent. rewrite app_nil_r in Hc, Hent.
  set (E := rows (cargar_excel_existente a)) in *.
  assert (Hperm : proyectar columnas <$> ordenar_desc "fecha" (quitar_repetidos "url" ∅ E)
                  ≡ₚ proyectar columnas <$> quitar_repetidos "url" ∅ E)
    by (by rewrite ordenar_desc_perm).
  assert (Hunicas : NoDup (celdas_url E) -> quitar_repetidos "url" ∅ E = E).
  { intros Hnd. apply quitar_repetidos_id; [done |]. intros r _. apply not_elem_of_empty. }
  eexists _, _. split; [exact Hc |]. split; [exact Hent |]. cbn [rows columns].
  split; [reflexivity |].
  split; [apply proyectar_ordenado, ordenar_desc_ordenado |].
  split.
  { intros r. rewrite list_elem_of_fmap. setoid_rewrite ordenar_desc_perm.
    setoid_rewrite quitar_repetidos_primera_aparicion. naive_solver. }
  split; [exact Hperm |]. split; [| split; [| split]].
  - intros Hnd. by rewrite Hperm, (Hunicas Hnd).
  - intros Hnd Hdom. rewrite Hperm, (Hunicas Hnd).
    by rewrite (proyectar_fmap_id columnas E Hdom).
  - exact (ejecutar_scraping_archivo _ _ _ Hent).
  - intros res Hrun.
    destruct (ejecutar_scraping_cuentas _ _ _ Hrun) as (df & nuevas & Hc' & _ & Htot & Hnue).
    rewrite Hc in Hc'. injection Hc' as <- <-. rewrite Htot, Hnue. cbn [rows length].
    split; [done |]. by rewrite length_fmap.
Qed.

Lemma sin_fuentes_se_reescribe_testigo :
  sin_respuesta entorno_caido
  /\ esquema_completo (cargar_excel_existente (Libro libro_ejemplo))
  /\ exists df escrito,
       combinar entorno_caido (Libro libro_ejemplo) = Some (df, [])
       /\ entrega entorno_caido (Libro libro_ejemplo) = Some escrito
       /\ StronglySorted fecha_no_anterior (rows escrito)
       /\ rows escrito ≡ₚ rows (cargar_excel_existente (Libro libro_ejemplo)).
Proof.
  assert (Hsin : sin_respuesta entorno_caido) by (intros direccion; reflexivity).
  assert (Hesq : esquema_completo (cargar_excel_existente (Libro libro_ejemplo)))
    by (apply (bool_decide_unpack _); vm_compute; exact I).
  refine (conj Hsin (conj Hesq _)).
  destruct (sin_fuentes_se_reescribe entorno_caido (Libro libro_ejemplo) Hsin Hesq)
    as (df & escrito & H1 & H2 & _ & H4 & _ & H6 & _).
  exists df, escrito. repeat (split; [assumption |]).
  rewrite H6. vm_compute. reflexivity.
Defined.

(** The claim as written fails: with every request failing, the second of two
    stored rows that share a url is neither handed to the writer nor in the
    file. *)
Lemma sin_fuentes_pierde_repetidas :
  sin_respuesta entorno_caido
  /\ rows (cargar_excel_existente (Libro libro_repetido)) = [fila_a; fila_b]
  /\ fila_b <> fila_a
  /\ entrega entorno_caido (Libro libro_repetido)
     = Some {| columns := columnas; rows := [fila_a] |}
  /\ archivo <$> ejecutar_scraping entorno_caido (Libro libro_repetido)
     = Some (Libro {| columns := columnas; rows := [fila_a] |}).
Proof.
  split; [intros direccion; reflexivity |].
  split; [reflexivity |].
  split; [| split; vm_compute; reflexivity].
  intros H. apply (f_equal (fun r : gmap string str => r !! "titulo"%string)) in H.
  vm_compute in H. discriminate.
Qed.

(** * Further properties of the code *)

(** ** limpiar_texto keeps what is not whitespace *)

Lemma sin_espacios_re_sub (b : bool) (s : str) :
  sin_espacios (re_sub_espacios b s) = sin_espacios s.
Proof.
  revert b; induction s as [|c r IH]; intros b; [done |].
  cbn [re_sub_espacios sin_espacios List.filter].
  destruct (Py_UNICODE_ISSPACE c) eqn:Hc; cbn [negb].
  - destruct b; [apply IH |]. cbn [List.filter]. change (Py_UNICODE_ISSPACE SP) with true.
    cbn [negb]. apply IH.
  - cbn [List.filter]. rewrite Hc. cbn [negb]. f_equal. apply IH.
Qed.

Lemma sin_espacios_lstrip (s : str) : sin_espacios (lstrip s) = sin_espacios s.
Proof.
  induction s as [|c r IH]; [done |]. cbn [lstrip].
  destruct (Py_UNICODE_ISSPACE c) eqn:Hc; [| done].
  cbn [sin_espacios List.filter]. by rewrite Hc.
Qed.

Lemma sin_espacios_rstrip (s : str) : sin_espacios (rstrip s) = sin_espacios s.
Proof.
  induction s as [|c r IH]; [done |]. cbn [rstrip].
  unfold sin_espacios in *. cbn [List.filter].
  destruct (rstrip r) as [|x r'] eqn:Hr.
  - rewrite <- IH. destruct (Py_UNICODE_ISSPACE c) eqn:Hc; cbn; by rewrite ?Hc.
  - cbn [List.filter]. by rewrite <- IH.
Qed.

Lemma length_re_sub (b : bool) (s : str) :
  (length (re_sub_espacios b s) <= length s)%nat.
Proof.
  revert b; induction s as [|c r IH]; intros b; [done |].
  cbn [re_sub_espacios]. destruct (Py_UNICODE_ISSPACE c); [destruct b |]; cbn [length].
  - specialize (IH true). lia.
  - specialize (IH true). lia.
  - specialize (IH false). lia.
Qed.

Lemma length_lstrip (s : str) : (length (lstrip s) <= length s)%nat.
Proof.
  induction s as [|c r IH]; [done |]. cbn [lstrip].
  destruct (Py_UNICODE_ISSPACE c); cbn [length]; lia.
Qed.

Lemma length_rstrip (s : str) : (length (rstrip s) <= length s)%nat.
Proof.
  induction s as [|c r IH]; [done |]. cbn [rstrip].
  destruct (rstrip r) as [|x r']; [destruct (Py_UNICODE_ISSPACE c) |]; cbn [length] in *; lia.
Qed.

Lemma sin_espacios_nil (s : str) :
  sin_espacios s = [] <-> Forall (fun c => Py_UNICODE_ISSPACE c = true) s.
Proof.
  induction s as [|c r IH]; [by split |].
  cbn [sin_espacios List.filter]. rewrite Forall_cons.
  destruct (Py_UNICODE_ISSPACE c); cbn [negb].
  - fold (sin_espacios r). rewrite IH. tauto.
  - split; [discriminate | by intros [? _]].
Qed.

(** X1. [limpiar_texto] changes whitespace only: the characters that are not
    whitespace are kept, in their order; the result is never longer than the
    text; and it is empty exactly for a text made of whitespace only. *)
Theorem limpiar_texto_solo_espacios (texto : str) :
  sin_espacios (limpiar_texto (Some texto)) = sin_espacios texto
  /\ (length (limpiar_texto (Some texto)) <= length texto)%nat
  /\ (limpiar_texto (Some texto) = [] <->
      Forall (fun c => Py_UNICODE_ISSPACE c = true) texto).
Proof.
  assert (H1 : sin_espacios (limpiar_texto (Some texto)) = sin_espacios texto).
  { destruct texto as [|c r]; [done |]. unfold limpiar_texto, strip.
    by rewrite sin_espacios_rstrip, sin_espacios_lstrip, sin_espacios_re_sub. }
  split; [exact H1 |]. split.
  - destruct texto as [|c r]; [done |]. unfold limpiar_texto, strip.
    etrans; [apply length_rstrip |]. etrans; [apply length_lstrip |]. apply length_re_sub.
  - rewrite <- sin_espacios_nil, <- H1. split; [by intros -> |].
    intros Hn. destruct texto as [|c r]; [done |].
    unfold limpiar_texto in *. pose proof (lstrip_strip (re_sub_espacios false (c :: r))) as Hl.
    pose proof (lstrip_cabeza (strip (re_sub_espacios false (c :: r)))) as Hc.
    rewrite Hl in Hc. destruct (strip _) as [|x n]; [done |].
    cbn [sin_espacios List.filter] in Hn. rewrite Hc in Hn. discriminate.
Qed.

(** ** Where obtener_resumen cuts *)

Lemma antes_del_ultimo_espacio_None (s : str) :
  antes_del_ultimo_espacio s = None <-> SP ∉ s.
Proof.
  induction s as [|c r IH]; [split; [intros _; apply not_elem_of_nil | done] |].
  cbn [antes_del_ultimo_espacio]. rewrite not_elem_of_cons.
  destruct (antes_del_ultimo_espacio r) as [t|].
  - split; [done |]. intros [_ Hr]. by apply IH in Hr.
  - destruct (N.eqb_spec c SP) as [->|Hc].
    + split; [done | by intros [? _]].
    + split; [| done]. intros _. split; [congruence | by apply IH].
Qed.

Lemma antes_del_ultimo_espacio_ultimo (s t : str) :
  antes_del_ultimo_espacio s = Some t ->
  exists resto, s = t ++ SP :: resto /\ SP ∉ resto.
Proof.
  revert t; induction s as [|c r IH]; intros t; [done |].
  cbn [antes_del_ultimo_espacio].
  destruct (antes_del_ultimo_espacio r) as [t'|] eqn:Hr.
  - intros [= <-]. destruct (IH t' eq_refl) as (resto & -> & Hno). by exists resto.
  - destruct (N.eqb_spec c SP) as [->|]; [| done]. intros [= <-].
    exists r. split; [done |]. by apply antes_del_ultimo_espacio_None.
Qed.

Lemma sin_rachas_antes_de_espacio (b : bool) (a r : str) :
  sin_rachas b (a ++ SP :: r) = true -> a <> [] ->
  exists a0 c, a = a0 ++ [c] /\ Py_UNICODE_ISSPACE c = false.
Proof.
  revert b; induction a as [|x a IH]; intros b H Ha; [done |].
  destruct a as [|y a].
  - exists [], x. split; [done |]. cbn in H.
    destruct (Py_UNICODE_ISSPACE x); [| done].
    change (Py_UNICODE_ISSPACE SP) with true in H. cbn in H.
    by rewrite andb_false_r in H.
  - cbn [app sin_rachas] in H.
    assert (Hresto : exists b', sin_rachas b' ((y :: a) ++ SP :: r) = true).
    { destruct (Py_UNICODE_ISSPACE x).
      - apply andb_true_iff in H as [_ H]. by exists true.
      - by exists false. }
    destruct Hresto as [b' Hb'].
    destruct (IH b' Hb') as (a0 & c & Heq & Hc); [done |].
    exists (x :: a0), c. split; [by rewrite Heq | done].
Qed.

Lemma limpiar_texto_cabeza (texto : option str) :
  match limpiar_texto texto with
  | [] => True
  | c :: _ => Py_UNICODE_ISSPACE c = false
  end.
Proof.
  destruct texto as [[|c r]|]; try done. unfold limpiar_texto.
  pose proof (lstrip_cabeza (strip (re_sub_espacios false (c :: r)))) as H.
  by rewrite lstrip_strip in H.
Qed.

(** X2. A text longer than a non-negative [max_chars] is cut at the last
    space among the first [max_chars] characters of the normalised text, so
    that what precedes "..." ends with the last character of a word; when
    those characters hold no space, all of them are kept and the word is cut
    where the bound falls. *)
Theorem obtener_resumen_corta_en_espacio (texto : option str) (max_chars : Z) :
  (0 <= max_chars)%Z ->
  (max_chars < Z.of_nat (length (limpiar_texto texto)))%Z ->
  (SP ∉ take (Z.to_nat max_chars) (limpiar_texto texto) ->
   obtener_resumen texto max_chars =
   take (Z.to_nat max_chars) (limpiar_texto texto) ++ u8 "...")
  /\ (SP ∈ take (Z.to_nat max_chars) (limpiar_texto texto) ->
      exists corte resto palabras c,
        obtener_resumen texto max_chars = corte ++ u8 "..."
        /\ take (Z.to_nat max_chars) (limpiar_texto texto) = corte ++ SP :: resto
        /\ (SP ∉ resto)
        /\ corte = palabras ++ [c]
        /\ Py_UNICODE_ISSPACE c = false).
Proof.
  intros H0 Hlen. unfold obtener_resumen, slice_hasta, rsplit1_cabeza.
  apply Z.leb_gt in Hlen as Hlen'. rewrite Hlen'.
  apply Z.leb_le in H0 as H0'. rewrite H0'.
  set (limpio := limpiar_texto texto) in *.
  set (bruto := take (Z.to_nat max_chars) limpio).
  split.
  - intros Hno. apply antes_del_ultimo_espacio_None in Hno. by rewrite Hno.
  - intros Hsi. destruct (antes_del_ultimo_espacio bruto) as [corte|] eqn:Hantes.
    2: { by apply antes_del_ultimo_espacio_None in Hantes. }
    destruct (antes_del_ultimo_espacio_ultimo _ _ Hantes) as (resto & Hbruto & Hresto).
    assert (Hlimpio : limpio = corte ++ SP :: (resto ++ drop (Z.to_nat max_chars) limpio)).
    { rewrite <- (take_drop (Z.to_nat max_chars) limpio) at 1. fold bruto.
      by rewrite Hbruto, <- app_assoc. }
    assert (Hcorte : corte <> []).
    { intros ->. pose proof (limpiar_texto_cabeza texto) as Hc. fold limpio in Hc.
      rewrite Hlimpio in Hc. cbn in Hc. discriminate. }
    pose proof (limpiar_texto_sin_rachas texto) as Hsr. fold limpio in Hsr.
    rewrite Hlimpio in Hsr.
    destruct (sin_rachas_antes_de_espacio _ _ _ Hsr Hcorte) as (palabras & c & Hpal & Hc).
    exists corte, resto, palabras, c. done.
Qed.

Lemma obtener_resumen_corta_en_espacio_testigo :
  (0 <= 9)%Z
  /\ (9 < Z.of_nat (length (limpiar_texto (Some (u8 "Marcha  estudiantil en Cali")))))%Z
  /\ (SP ∈ take (Z.to_nat 9) (limpiar_texto (Some (u8 "Marcha  estudiantil en Cali"))))
  /\ exists corte resto palabras c,
       obtener_resumen (Some (u8 "Marcha  estudiantil en Cali")) 9 = corte ++ u8 "..."
       /\ take (Z.to_nat 9) (limpiar_texto (Some (u8 "Marcha  estudiantil en Cali")))
          = corte ++ SP :: resto
       /\ (SP ∉ resto)
       /\ corte = palabras ++ [c]
       /\ Py_UNICODE_ISSPACE c = false.
Proof.
  assert (H0 : (0 <= 9)%Z) by lia.
  assert (H1 : (9 < Z.of_nat (length (limpiar_texto (Some (u8 "Marcha  estudiantil en Cali")))))%Z)
    by (vm_compute; reflexivity).
  assert (H2 : SP ∈ take (Z.to_nat 9) (limpiar_texto (Some (u8 "Marcha  estudiantil en Cali"))))
    by (apply (bool_decide_unpack _); vm_compute; exact I).
  refine (conj H0 (conj H1 (conj H2 _))).
  exact (proj2 (obtener_resumen_corta_en_espacio
                  (Some (u8 "Marcha  estudiantil en Cali")) 9 H0 H1) H2).
Defined.

(** ** detectar_ciudad reports what the text mentions *)

Lemma buscar_ciudad_Some (items : list (str * str)) (tl v : str) :
  buscar_ciudad items tl = Some v ->
  exists k, In (k, v) items /\ v <> COLOMBIA /\ str_in k tl = true.
Proof.
  induction items as [|[k0 v0] resto IH]; [done |]. cbn [buscar_ciudad].
  destruct (str_in k0 tl) eqn:Hk.
  - case_bool_decide as Hv.
    + intros [= <-]. exists k0. split; [by left | done].
    + intros H. destruct (IH H) as (k & ? & ? & ?). exists k. split; [by right | done].
  - intros H. destruct (IH H) as (k & ? & ? & ?). exists k. split; [by right | done].
Qed.

Lemma buscar_ciudad_None (items : list (str * str)) (tl : str) :
  buscar_ciudad items tl = None ->
  forall k v, In (k, v) items -> v <> COLOMBIA -> str_in k tl = false.
Proof.
  induction items as [|[k0 v0] resto IH]; [done |]. cbn [buscar_ciudad].
  intros H k v [[= <- <-] | Hin] Hv.
  - destruct (str_in k0 tl); [| done].
    by rewrite bool_decide_eq_true_2 in H.
  - apply (IH (ltac:(by destruct (str_in k0 tl), (bool_decide (v0 ≠ COLOMBIA)))) k v Hin Hv).
Qed.

Lemma ciudades_nombres :
  Forall (fun kv : str * str =>
            snd kv <> SIN_IDENTIFICAR /\ (snd kv = COLOMBIA -> fst kv = colombia))
         CIUDADES_COLOMBIA.
Proof. apply (bool_decide_unpack _). vm_compute. exact I. Qed.

(** X3. [detectar_ciudad] names a city only when one of the keys of that city
    occurs in the lower-cased text, "Colombia" only when "colombia" occurs,
    and the sentinel exactly when no key of the table occurs. *)
Theorem detectar_ciudad_solo_mencionadas (texto : str) :
  (detectar_ciudad (Some texto) = u8 "Sin identificar" <->
   forall clave nombre_ciudad,
     In (clave, nombre_ciudad) CIUDADES_COLOMBIA -> ~ subcadena clave (lower texto))
  /\ (detectar_ciudad (Some texto) = u8 "Colombia" ->
      subcadena (u8 "colombia") (lower texto))
  /\ (detectar_ciudad (Some texto) <> u8 "Sin identificar" ->
      exists clave,
        In (clave, detectar_ciudad (Some texto)) CIUDADES_COLOMBIA
        /\ subcadena clave (lower texto)).
Proof.
  assert (Htabla : forall k v, In (k, v) CIUDADES_COLOMBIA ->
            v <> SIN_IDENTIFICAR /\ (v = COLOMBIA -> k = colombia)).
  { intros k v Hin. pose proof ciudades_nombres as H. rewrite Forall_forall in H.
    by apply (H (k, v)), list_elem_of_In. }
  assert (Hcol : In (colombia, COLOMBIA) CIUDADES_COLOMBIA)
    by (apply list_elem_of_In, (bool_decide_unpack _); vm_compute; exact I).
  destruct texto as [|c r].
  { split; [| split; [by vm_compute | done]].
    split; [| done]. intros _ clave nombre_ciudad Hin (pre & post & H).
    destruct pre; [| discriminate]. destruct clave; [| discriminate].
    revert Hin. vm_compute. intuition discriminate. }
  unfold detectar_ciudad, detectar_ciudad_en.
  change (u8 "Sin identificar") with SIN_IDENTIFICAR.
  change (u8 "Colombia") with COLOMBIA. change (u8 "colombia") with colombia.
  destruct (buscar_ciudad CIUDADES_COLOMBIA (lower (c :: r))) as [v|] eqn:Hb.
  - destruct (buscar_ciudad_Some _ _ _ Hb) as (k & Hin & Hv & Hk).
    apply str_in_spec in Hk.
    split; [| split; [done | by exists k]].
    split.
    + intros ->. by destruct (Htabla _ _ Hin).
    + intros Hno. by destruct (Hno _ _ Hin).
  - pose proof (buscar_ciudad_None _ _ Hb) as Hnone.
    destruct (str_in colombia (lower (c :: r))) eqn:Hc.
    + apply str_in_spec in Hc. split; [| split; [done | by exists colombia]].
      split; [done |]. intros Hno. by destruct (Hno _ _ Hcol).
    + split; [| split; [done | done]].
      split; [| done]. intros _ clave nombre_ciudad Hin.
      apply str_in_false. destruct (decide (nombre_ciudad = COLOMBIA)) as [Heq | Hne].
      * destruct (Htabla _ _ Hin) as [_ Hk]. by rewrite (Hk Heq).
      * by eapply Hnone.
Qed.

Lemma detectar_ciudad_solo_mencionadas_testigo :
  detectar_ciudad (Some (u8 "Paro de estudiantes en Cúcuta")) <> u8 "Sin identificar"
  /\ exists clave,
       In (clave, detectar_ciudad (Some (u8 "Paro de estudiantes en Cúcuta")))
          CIUDADES_COLOMBIA
       /\ subcadena clave (lower (u8 "Paro de estudiantes en Cúcuta")).
Proof.
  assert (H : detectar_ciudad (Some (u8 "Paro de estudiantes en Cúcuta"))
              <> u8 "Sin identificar") by (vm_compute; discriminate).
  exact (conj H (proj2 (proj2
    (detectar_ciudad_solo_mencionadas (u8 "Paro de estudiantes en Cúcuta"))) H)).
Defined.

(** ** The relevance filter *)

(** X4. Relevance survives context: a text that contains a relevant text is
    relevant. *)
Theorem relevancia_se_conserva (antes texto despues : str) :
  contiene_terminos_juventud (Some texto) = true ->
  contiene_terminos_juventud (Some (antes ++ texto ++ despues)) = true.
Proof. apply contiene_monotono. by exists antes, despues. Qed.

Lemma relevancia_se_conserva_testigo :
  contiene_terminos_juventud (Some (u8 "jóvenes")) = true
  /\ contiene_terminos_juventud
       (Some (u8 "Cientos de " ++ u8 "jóvenes" ++ u8 " marchan")) = true.
Proof.
  assert (H : contiene_terminos_juventud (Some (u8 "jóvenes")) = true)
    by (vm_compute; reflexivity).
  exact (conj H (relevancia_se_conserva (u8 "Cientos de ") (u8 "jóvenes") (u8 " marchan") H)).
Defined.

Ltac probar_base :=
  split; [apply list_elem_of_In, (bool_decide_unpack _); vm_compute; exact I |];
  split; [ intros Hred; apply list_elem_of_In in Hred; revert Hred;
           apply (bool_decide_unpack _); vm_compute; exact I
         | apply str_in_spec; vm_compute; reflexivity ].

Lemma terminos_subsumidos (termino : str) :
  In termino TERMINOS_JUVENTUD ->
  exists base_, In base_ TERMINOS_JUVENTUD /\ ~ In base_ terminos_redundantes
                /\ subcadena (lower base_) (lower termino).
Proof.
  intros Hin.
  assert (Hcasos : termino ∈ TERMINOS_JUVENTUD) by by apply list_elem_of_In.
  unfold TERMINOS_JUVENTUD in Hcasos. cbn [List.map] in Hcasos.
  repeat (apply elem_of_cons in Hcasos as [-> | Hcasos]);
    try (by apply elem_of_nil in Hcasos);
    match goal with
    | |- exists _, _ /\ _ /\ subcadena _ (lower ?t) =>
      first [ exists t; probar_base | exists (u8 "juvenil"); probar_base
            | exists (u8 "infancia"); probar_base ]
    end.
Qed.

(** X5. Three of the nineteen terms never decide: "juveniles" and
    "plataformas juveniles" contain "juvenil", "primera infancia" contains
    "infancia", so a text is relevant exactly when one of the other sixteen
    terms occurs in it. *)
Theorem terminos_que_deciden (texto : str) :
  contiene_terminos_juventud (Some texto) = true <->
  exists termino,
    In termino TERMINOS_JUVENTUD /\ ~ In termino terminos_redundantes
    /\ subcadena (lower termino) (lower texto).
Proof.
  destruct texto as [|c r].
  - split; [done |]. intros (t & Hin & _ & pre & post & H).
    destruct pre; [| discriminate]. cbn in H. symmetry in H.
    apply app_eq_nil in H as [H _]. apply lower_nil_inv in H.
    by apply terminos_no_vacios in Hin.
  - rewrite contiene_spec. split.
    + intros (t & Hin & Ht). destruct (terminos_subsumidos t Hin) as (b & Hb & Hnr & Hsub).
      exists b. split; [done |]. split; [done |]. by eapply subcadena_trans.
    + intros (t & Hin & _ & Ht). by exists t.
Qed.

(** ** What the scrapers build *)

Lemma limpiar_texto_fijo (texto : option str) :
  limpiar_texto (Some (limpiar_texto texto)) = limpiar_texto texto.
Proof.
  pose proof (limpiar_texto_sin_rachas texto) as Hsr.
  pose proof (limpiar_texto_cabeza texto) as Hc.
  destruct (limpiar_texto texto) as [|c r] eqn:Hn; [done |].
  unfold limpiar_texto at 1. rewrite (re_sub_sin_rachas _ _ Hsr).
  unfold strip. cbn [lstrip]. rewrite Hc, <- Hn.
  destruct texto as [[|x t]|]; try done. apply rstrip_idemp.
Qed.

Lemma obtener_resumen_longitud (texto : option str) (max_chars : Z) :
  (0 <= max_chars)%Z ->
  (Z.of_nat (length (obtener_resumen texto max_chars)) <= max_chars + 3)%Z.
Proof.
  intros H0. unfold obtener_resumen.
  destruct (Z.leb_spec (Z.of_nat (length (limpiar_texto texto))) max_chars) as [Hle | Hgt];
    [lia |].
  unfold slice_hasta. apply Z.leb_le in H0 as H0'. rewrite H0'.
  pose proof (rsplit1_cabeza_prefijo (take (Z.to_nat max_chars) (limpiar_texto texto))) as Hp.
  apply prefix_length in Hp. rewrite length_take in Hp.
  rewrite length_app. change (length PUNTOS) with 3%nat. lia.
Qed.

Lemma aporte_inv (e : Entorno) (f : Fuente) (art : Contenedor) (n : Noticia) :
  In n (aporte e f art) ->
  exists href titulo_ resumen_,
    art = Articulo href titulo_ resumen_
    /\ contiene_terminos_juventud (Some titulo_)
       || contiene_terminos_juventud (Some resumen_) = true
    /\ n = construir_noticia e f href titulo_ resumen_.
Proof.
  destruct art as [| |href titulo_ resumen_]; cbn [aporte]; try done.
  destruct (_ || _) eqn:Hrel; [| done]. intros [<- | []]. by exists href, titulo_, resumen_.
Qed.

Lemma scrape_fuente_inv (f : Fuente) (e : Entorno) (n : Noticia) :
  In n (scrape_fuente f e) ->
  exists articulos href titulo_ resumen_,
    hacer_request e (seccion f) = Some articulos
    /\ In (Articulo href titulo_ resumen_) (take 50 articulos)
    /\ contiene_terminos_juventud (Some titulo_)
       || contiene_terminos_juventud (Some resumen_) = true
    /\ n = construir_noticia e f href titulo_ resumen_.
Proof.
  rewrite scrape_fuente_aporte.
  destruct (hacer_request e (seccion f)) as [articulos|]; [| done].
  intros (art & Hart & Hn)%in_flat_map.
  apply aporte_inv in Hn as (href & t & r & -> & Hrel & ->).
  by exists articulos, href, t, r.
Qed.

Lemma detectar_ciudad_rango (texto : option str) :
  detectar_ciudad texto = SIN_IDENTIFICAR
  \/ exists clave, In (clave, detectar_ciudad texto) CIUDADES_COLOMBIA.
Proof.
  destruct texto as [[|c r]|]; try by left.
  unfold detectar_ciudad, detectar_ciudad_en.
  destruct (buscar_ciudad _ _) as [v|] eqn:Hb.
  - right. destruct (buscar_ciudad_Some _ _ _ Hb) as (k & ? & _). by exists k.
  - destruct (str_in colombia _); [| by left]. right. exists colombia.
    apply list_elem_of_In, (bool_decide_unpack _). vm_compute. exact I.
Qed.

(** X6. Every record a scraper returns carries the date of the run and the
    name of its source, a title that is already normalised, a summary of at
    most 253 characters, a url that either starts with "http" or was resolved
    by [urljoin] against the base of the source, and as city a name of the
    city table, the sentinel, or the home city of the source. *)
Theorem noticia_bien_formada (f : Fuente) (e : Entorno) (n : Noticia) :
  In n (scrape_fuente f e) ->
  fecha n = hoy e
  /\ fuente n = nombre f
  /\ limpiar_texto (Some (titulo n)) = titulo n
  /\ (length (resumen n) <= 253)%nat
  /\ (startswith (u8 "http") (url n) = true
      \/ exists href, url n = urljoin e (base f) href)
  /\ (ciudad n = u8 "Sin identificar"
      \/ (exists clave, In (clave, ciudad n) CIUDADES_COLOMBIA)
      \/ ciudad_por_defecto f = Some (ciudad n)).
Proof.
  intros (articulos & href & t & r & _ & _ & _ & ->)%scrape_fuente_inv.
  cbn [construir_noticia fecha fuente titulo resumen url ciudad].
  split; [done |]. split; [done |]. split; [apply limpiar_texto_fijo |]. split; [| split].
  - destruct (truthy (Some r)); [| cbn; lia]. unfold obtener_resumen_250.
    pose proof (obtener_resumen_longitud (Some r) 250 ltac:(lia)). lia.
  - change (u8 "http") with HTTP. destruct (startswith HTTP href) eqn:Hh; [by left |].
    right. by exists href.
  - change (u8 "Sin identificar") with SIN_IDENTIFICAR.
    destruct (detectar_ciudad_rango (Some (t ++ SP :: r))) as [Hsin | Hcity].
    + rewrite Hsin. rewrite bool_decide_eq_true_2 by done.
      destruct (ciudad_por_defecto f); [right; by right | by left].
    + destruct (ciudad_por_defecto f) as [local|]; [| right; by left].
      case_bool_decide; [right; by right | right; by left].
Qed.

Lemma noticia_bien_formada_testigo :
  In {| fecha := u8 "2024-05-01"; titulo := u8 "Jóvenes marchan en Bogotá";
        fuente := u8 "Blu Radio"; ciudad := u8 "Bogotá";
        url := u8 "https://www.bluradio.com/nota/1";
        resumen := u8 "Cientos de jóvenes..." |}
     (scrape_fuente BLU_RADIO entorno_escenarios)
  /\ (length (u8 "Cientos de jóvenes...") <= 253)%nat.
Proof.
  assert (H : In {| fecha := u8 "2024-05-01"; titulo := u8 "Jóvenes marchan en Bogotá";
                    fuente := u8 "Blu Radio"; ciudad := u8 "Bogotá";
                    url := u8 "https://www.bluradio.com/nota/1";
                    resumen := u8 "Cientos de jóvenes..." |}
                 (scrape_fuente BLU_RADIO entorno_escenarios))
    by (vm_compute; left; reflexivity).
  exact (conj H (proj1 (proj2 (proj2 (proj2
    (noticia_bien_formada BLU_RADIO entorno_escenarios _ H)))))).
Defined.

(** X7. Alerta Bogotá never yields the sentinel.  Every record it returns is
    built from one of the first fifty containers of its page; when the title
    and summary of that container name no city the record gets "Bogotá",
    otherwise it keeps the city detected in them. *)
Theorem alertabogota_siempre_con_ciudad (e : Entorno) (n : Noticia) :
  In n (scrape_alertabogota e) ->
  ciudad n <> u8 "Sin identificar"
  /\ exists articulos href titulo_ resumen_,
       hacer_request e (seccion ALERTA_BOGOTA) = Some articulos
       /\ In (Articulo href titulo_ resumen_) (take 50 articulos)
       /\ n = construir_noticia e ALERTA_BOGOTA href titulo_ resumen_
       /\ (detectar_ciudad (Some (titulo_ ++ SP :: resumen_)) = u8 "Sin identificar" ->
           ciudad n = u8 "Bogotá")
       /\ (detectar_ciudad (Some (titulo_ ++ SP :: resumen_)) <> u8 "Sin identificar" ->
           ciudad n = detectar_ciudad (Some (titulo_ ++ SP :: resumen_))).
Proof.
  unfold scrape_alertabogota.
  intros (articulos & href & t & r & Hreq & Hart & _ & ->)%scrape_fuente_inv.
  change (u8 "Sin identificar") with SIN_IDENTIFICAR.
  split.
  - cbn [construir_noticia ciudad ALERTA_BOGOTA ciudad_por_defecto].
    case_bool_decide; [by vm_compute | done].
  - exists articulos, href, t, r.
    split; [exact Hreq |]. split; [exact Hart |]. split; [done |].
    cbn [construir_noticia ciudad ALERTA_BOGOTA ciudad_por_defecto].
    split; intros H.
    + by rewrite bool_decide_eq_true_2.
    + by rewrite bool_decide_eq_false_2.
Qed.

Lemma alertabogota_siempre_con_ciudad_testigo :
  In (construir_noticia entorno_escenarios ALERTA_BOGOTA
        (u8 "/a/3") (u8 "Niños sin cupo escolar") (u8 ""))
     (scrape_alertabogota entorno_escenarios)
  /\ ciudad (construir_noticia entorno_escenarios ALERTA_BOGOTA
               (u8 "/a/3") (u8 "Niños sin cupo escolar") (u8 ""))
     <> u8 "Sin identificar".
Proof.
  assert (H : In (construir_noticia entorno_escenarios ALERTA_BOGOTA
                    (u8 "/a/3") (u8 "Niños sin cupo escolar") (u8 ""))
                 (scrape_alertabogota entorno_escenarios))
    by (left; vm_compute; reflexivity).
  exact (conj H (proj1 (alertabogota_siempre_con_ciudad entorno_escenarios _ H))).
Defined.

Lemma flat_map_aporte_filtrado (e : Entorno) (f : Fuente) (l : list Contenedor) :
  flat_map (aporte e f) (List.filter es_articulo l) = flat_map (aporte e f) l.
Proof.
  induction l as [|art l IH]; [done |].
  destruct art; cbn [List.filter es_articulo flat_map aporte app]; by rewrite ?IH.
Qed.

Lemma length_flat_map_aporte (e : Entorno) (f : Fuente) (l : list Contenedor) :
  (length (flat_map (aporte e f) l) <= length (List.filter es_articulo l))%nat.
Proof.
  induction l as [|art l IH]; [done |].
  destruct art as [| |href t r]; cbn [List.filter es_articulo flat_map aporte app]; try done.
  destruct (_ || _); cbn [app length]; lia.
Qed.

(** X8. A scraper looks at the first fifty containers of its page and at no
    other: it returns at most fifty records, at most as many as those
    containers that have a link and do not raise, and what it returns is not
    changed by the containers that raise, by those without a link, or by any
    container after the fiftieth. *)
Theorem scrape_fuente_tope (f : Fuente) (e : Entorno) (articulos : list Contenedor) :
  hacer_request e (seccion f) = Some articulos ->
  (length (scrape_fuente f e) <= 50)%nat
  /\ (length (scrape_fuente f e)
      <= length (List.filter es_articulo (take 50 articulos)))%nat
  /\ scrape_fuente f e = recorrer e f (List.filter es_articulo (take 50 articulos)) [].
Proof.
  intros Hreq. rewrite scrape_fuente_aporte, Hreq.
  pose proof (length_flat_map_aporte e f (take 50 articulos)) as Hlen.
  assert (Hfil : (length (List.filter es_articulo (take 50 articulos)) <= 50)%nat).
  { etrans; [apply List.filter_length_le |]. rewrite length_take. lia. }
  split; [lia |]. split; [done |].
  by rewrite recorrer_aporte, flat_map_aporte_filtrado.
Qed.

Lemma scrape_fuente_tope_testigo :
  hacer_request entorno_ejemplo (seccion BLU_RADIO)
    = Some [ Articulo (u8 "/nota/1") (u8 "Los jóvenes marcharon") (u8 "");
             SinEnlace;
             Articulo (u8 "/nota/2") (u8 "Paro en colegios de Cali") (u8 "Sin clases") ]
  /\ (length (scrape_fuente BLU_RADIO entorno_ejemplo) <= 50)%nat.
Proof.
  assert (H : hacer_request entorno_ejemplo (seccion BLU_RADIO)
    = Some [ Articulo (u8 "/nota/1") (u8 "Los jóvenes marcharon") (u8 "");
             SinEnlace;
             Articulo (u8 "/nota/2") (u8 "Paro en colegios de Cali") (u8 "Sin clases") ])
    by (vm_compute; reflexivity).
  exact (conj H (proj1 (scrape_fuente_tope BLU_RADIO entorno_ejemplo _ H))).
Defined.

(** ** The known-url test of the coordinator *)

Lemma nuevos_elem (conocidas : gset str) (l : list Noticia) (n : Noticia) :
  n ∈ nuevos conocidas l -> n ∈ l /\ url n ∉ conocidas.
Proof.
  revert conocidas; induction l as [|x l IH]; intros conocidas; [by intros ?%elem_of_nil |].
  cbn [nuevos]. case_bool_decide as Hx.
  - intros [-> | [? ?]%IH]%elem_of_cons; set_solver.
  - intros [? ?]%IH. set_solver.
Qed.

Lemma nuevos_NoDup (conocidas : gset str) (l : list Noticia) :
  NoDup (url <$> nuevos conocidas l).
Proof.
  revert conocidas; induction l as [|x l IH]; intros conocidas; [constructor |].
  cbn [nuevos]. case_bool_decide as Hx; [| apply IH].
  cbn [fmap list_fmap]. constructor; [| apply IH].
  intros (m & Heq & Hm)%list_elem_of_fmap. apply nuevos_elem in Hm as [_ Hm]. set_solver.
Qed.

Lemma nuevos_sublist (conocidas : gset str) (l : list Noticia) :
  nuevos conocidas l `sublist_of` l.
Proof.
  revert conocidas; induction l as [|x l IH]; intros conocidas; [done |].
  cbn [nuevos]. case_bool_decide; [by apply sublist_skip | by apply sublist_cons].
Qed.


(** ** The counts a run reports *)

Lemma claves_quitar_repetidos (l : list (gmap string str)) :
  (list_to_set ((fun r : gmap string str => r !! "url"%string)
                  <$> quitar_repetidos "url" ∅ l) : gset (option str))
  = list_to_set ((fun r : gmap string str => r !! "url"%string) <$> l).
Proof.
  apply set_eq. intros u. rewrite !elem_of_list_to_set, !list_elem_of_fmap. split.
  - intros (r & -> & Hr). apply quitar_repetidos_elem in Hr as [Hr _]. by exists r.
  - intros (r & -> & Hr).
    destruct (quitar_repetidos_cubre "url" ∅ l r Hr) as [Hin | (r' & Hr' & Heq)].
    + by apply not_elem_of_empty in Hin.
    + by exists r'.
Qed.

Lemma length_quitar_repetidos (l : list (gmap string str)) :
  length (quitar_repetidos "url" ∅ l)
  = size (list_to_set ((fun r : gmap string str => r !! "url"%string) <$> l)
          : gset (option str)).
Proof.
  rewrite <- claves_quitar_repetidos, size_list_to_set by apply quitar_repetidos_NoDup.
  by rewrite length_fmap.
Qed.

Lemma length_candidatos (e : Entorno) : (length (candidatos e) <= 350)%nat.
Proof.
  assert (H : forall f, (length (scrape_fuente f e) <= 50)%nat).
  { intros f. rewrite scrape_fuente_aporte.
    destruct (hacer_request e (seccion f)) as [articulos|]; [| cbn; lia].
    etrans; [apply length_flat_map_aporte |].
    etrans; [apply List.filter_length_le |]. rewrite length_take. lia. }
  unfold candidatos, scrapers, scrape_bluradio, scrape_caracol, scrape_alertabogota,
    scrape_redmas, scrape_pulzo, scrape_infobae, scrape_diarioadn.
  cbn [flat_map]. rewrite !length_app. cbn [length].
  pose proof (H BLU_RADIO). pose proof (H NOTICIAS_CARACOL). pose proof (H ALERTA_BOGOTA).
  pose proof (H RED_MAS). pose proof (H PULZO). pose proof (H INFOBAE).
  pose proof (H DIARIO_ADN). lia.
Qed.

(** X10. The two counts of a run add up.  For a loaded frame with the six
    columns, steps 1 to 3 give a frame whose number of rows is the number of
    different values in the url column of the loaded frame plus the number
    of records admitted, and they admit at most 350 records (fifty for each
    of the seven sources); a run that completes reports these two numbers. *)
Theorem cuentas_del_informe (e : Entorno) (a : Archivo) :
  esquema_completo (cargar_excel_existente a) ->
  exists df nuevas,
    combinar e a = Some (df, nuevas)
    /\ length (rows df)
       = (size (list_to_set ((fun r : gmap string str => r !! "url"%string)
                               <$> rows (cargar_excel_existente a))
                : gset (option str))
          + length nuevas)%nat
    /\ (length nuevas <= length (candidatos e))%nat
    /\ (length nuevas <= 350)%nat
    /\ (forall res,
          ejecutar_scraping e a = Some res ->
          total_en_base res = length (rows df)
          /\ nuevas_agregadas res = length nuevas).
Proof.
  intros Hesq. destruct (combinar_forma e a Hesq) as (cols & _ & Hc).
  eexists _, _. split; [exact Hc |]. cbn [rows].
  set (E := rows (cargar_excel_existente a)).
  set (conocidas := list_to_set (omap (fun r : gmap string str => r !! "url"%string) E)
                    : gset str).
  assert (Hsub : (length (nuevos conocidas (candidatos e)) <= length (candidatos e))%nat)
    by apply sublist_length, nuevos_sublist.
  pose proof (length_candidatos e) as H350.
  split; [| split; [lia | split; [lia |]]].
  - rewrite (Permutation_length (ordenar_desc_perm _ _)).
    rewrite <- (quitar_repetidos_dos_pasadas E (candidatos e)). fold conocidas.
    rewrite quitar_repetidos_app, length_app, length_quitar_repetidos. f_equal.
    rewrite quitar_repetidos_id, length_fmap; [done | |].
    + replace ((fun r : gmap string str => r !! "url"%string)
                 <$> (fila_de_noticia <$> nuevos conocidas (candidatos e)))
        with (Some <$> (url <$> nuevos conocidas (candidatos e))).
      * apply (NoDup_fmap_2 Some), nuevos_NoDup.
      * rewrite <- !list_fmap_compose. apply list_fmap_ext. intros i n _. cbn.
        by rewrite fila_de_noticia_url.
    + intros r (n & -> & Hn)%list_elem_of_fmap. rewrite fila_de_noticia_url.
      apply nuevos_elem in Hn as [_ Hn]. intros Hin. apply Hn.
      apply elem_of_union in Hin as [Hin | Hin]; [| by apply not_elem_of_empty in Hin].
      apply elem_of_list_to_set, list_elem_of_fmap in Hin as (r & Hr1 & Hr2).
      apply elem_of_list_to_set, list_elem_of_omap. by exists r.
  - intros res Hrun.
    destruct (ejecutar_scraping_cuentas _ _ _ Hrun) as (df & nuevas & Hc' & _ & Htot & Hnue).
    rewrite Hc in Hc'. injection Hc' as <- <-. by rewrite Htot, Hnue.
Qed.

Lemma cuentas_del_informe_testigo :
  esquema_completo (cargar_excel_existente (Libro libro_ejemplo))
  /\ exists df nuevas,
       combinar entorno_ejemplo (Libro libro_ejemplo) = Some (df, nuevas)
       /\ (length nuevas <= 350)%nat.
Proof.
  assert (Hesq : esquema_completo (cargar_excel_existente (Libro libro_ejemplo)))
    by (apply (bool_decide_unpack _); vm_compute; exact I).
  split; [exact Hesq |].
  destruct (cuentas_del_informe entorno_ejemplo (Libro libro_ejemplo) Hesq)
    as (df & nuevas & H1 & _ & _ & H4 & _).
  exists df, nuevas. split; assumption.
Defined.

(** ** The order of the written rows *)

(** X11. The rows a run hands to the writer are in descending order of date:
    no row has a smaller date (as strings) than a row after it, and the rows
    without date are the last ones.  The same holds of the frame the run
    returns. *)
Theorem archivo_ordenado_por_fecha (e : Entorno) (a : Archivo) :
  esquema_completo (cargar_excel_existente a) ->
  exists df nuevas escrito,
    combinar e a = Some (df, nuevas)
    /\ entrega e a = Some escrito
    /\ StronglySorted fecha_no_anterior (rows escrito)
    /\ StronglySorted fecha_no_anterior (rows df)
    /\ (forall res, ejecutar_scraping e a = Some res -> df_final res = df).
Proof.
  intros Hesq. destruct (combinar_forma e a Hesq) as (cols & _ & Hc).
  eexists _, _, _. split; [exact Hc |]. split; [exact (entrega_forma e a Hesq) |].
  cbn [rows].
  split; [apply proyectar_ordenado, ordenar_desc_ordenado |].
  split; [apply ordenar_desc_ordenado |].
  intros res Hrun.
  destruct (ejecutar_scraping_cuentas _ _ _ Hrun) as (df & nuevas & Hc' & Hdf & _).
  rewrite Hc in Hc'. by injection Hc' as <- <-.
Qed.

Lemma archivo_ordenado_por_fecha_testigo :
  esquema_completo (cargar_excel_existente (Libro libro_ejemplo))
  /\ exists escrito,
       entrega entorno_ejemplo (Libro libro_ejemplo) = Some escrito
       /\ StronglySorted fecha_no_anterior (rows escrito).
Proof.
  assert (Hesq : esquema_completo (cargar_excel_existente (Libro libro_ejemplo)))
    by (apply (bool_decide_unpack _); vm_compute; exact I).
  split; [exact Hesq |].
  destruct (archivo_ordenado_por_fecha entorno_ejemplo (Libro libro_ejemplo) Hesq)
    as (df & nuevas & escrito & _ & H2 & H3 & _).
  exists escrito. auto.
Defined.

(** ** What a run writes *)

Lemma claves_quitar_elem (l : list (gmap string str)) (u : option str) :
  u ∈ (fun r : gmap string str => r !! "url"%string) <$> quitar_repetidos "url" ∅ l <->
  u ∈ (fun r : gmap string str => r !! "url"%string) <$> l.
Proof.
  pose proof (claves_quitar_repetidos l) as H.
  apply (f_equal (fun s : gset (option str) => u ∈ s)) in H.
  by rewrite <- !(elem_of_list_to_set (C := gset (option str))), H.
Qed.

(** X12. Steps 1 to 3 lose no url and invent none: the values in the url
    column of the frame handed to the writer are those of the loaded frame
    together with the urls of the candidates of the run. *)
Theorem urls_del_archivo (e : Entorno) (a : Archivo) :
  esquema_completo (cargar_excel_existente a) ->
  exists escrito,
    entrega e a = Some escrito
    /\ forall u : option str,
         u ∈ celdas_url (rows escrito) <->
         u ∈ celdas_url (rows (cargar_excel_existente a))
         \/ exists n, n ∈ candidatos e /\ u = Some (url n).
Proof.
  intros Hesq. eexists. split; [exact (entrega_forma e a Hesq) |]. cbn [rows].
  intros u. unfold celdas_url.
  rewrite claves_proyectadas, ordenar_desc_perm, claves_quitar_elem.
  rewrite fmap_app, elem_of_app, <- list_fmap_compose.
  apply or_iff_compat_l. rewrite list_elem_of_fmap. split.
  - intros (n & -> & Hn). exists n. split; [done |]. cbn. apply fila_de_noticia_url.
  - intros (n & Hn & ->). exists n. split; [| done]. cbn. by rewrite fila_de_noticia_url.
Qed.

Lemma urls_del_archivo_testigo :
  esquema_completo (cargar_excel_existente (Libro libro_ejemplo))
  /\ exists escrito,
       entrega entorno_ejemplo (Libro libro_ejemplo) = Some escrito
       /\ forall u : option str,
            u ∈ celdas_url (rows escrito) <->
            u ∈ celdas_url (rows (cargar_excel_existente (Libro libro_ejemplo)))
            \/ exists n, n ∈ candidatos entorno_ejemplo /\ u = Some (url n).
Proof.
  assert (Hesq : esquema_completo (cargar_excel_existente (Libro libro_ejemplo)))
    by (apply (bool_decide_unpack _); vm_compute; exact I).
  exact (conj Hesq (urls_del_archivo entorno_ejemplo (Libro libro_ejemplo) Hesq)).
Defined.

(** X13. A candidate whose url is in no loaded row and in no earlier
    candidate of the run is handed to the writer as a row with its six
    fields as the scraper built them, and with no other cell. *)
Theorem noticia_nueva_se_guarda (e : Entorno) (a : Archivo) (i : nat) (n : Noticia) :
  esquema_completo (cargar_excel_existente a) ->
  candidatos e !! i = Some n ->
  (forall r, r ∈ rows (cargar_excel_existente a) -> r !! "url"%string <> Some (url n)) ->
  (forall j m, (j < i)%nat -> candidatos e !! j = Some m -> url m <> url n) ->
  exists escrito r,
    entrega e a = Some escrito
    /\ r ∈ rows escrito
    /\ r !! "fecha"%string = Some (fecha n)
    /\ r !! "titulo"%string = Some (titulo n)
    /\ r !! "fuente"%string = Some (fuente n)
    /\ r !! "ciudad"%string = Some (ciudad n)
    /\ r !! "url"%string = Some (url n)
    /\ r !! "resumen"%string = Some (resumen n)
    /\ (forall c, c ∉ columnas -> r !! c = None).
Proof.
  intros Hesq Hi Hstore Hprev.
  eexists _, (fila_de_noticia n). split; [exact (entrega_forma e a Hesq) |].
  split; [| apply fila_de_noticia_campos]. cbn [rows].
  set (E := rows (cargar_excel_existente a)) in *.
  apply list_elem_of_fmap. exists (fila_de_noticia n).
  split; [by rewrite proyectar_fila_de_noticia |].
  rewrite ordenar_desc_perm. apply quitar_repetidos_primera_aparicion.
  exists (length E + i)%nat. split.
  - rewrite lookup_app_r by lia. replace (length E + i - length E)%nat with i by lia.
    by rewrite list_lookup_fmap, Hi.
  - intros j r' Hj Hr'. rewrite fila_de_noticia_url.
    destruct (decide (j < length E)%nat) as [Hlt | Hge].
    + rewrite lookup_app_l in Hr' by done. apply Hstore. by eapply list_elem_of_lookup_2.
    + rewrite lookup_app_r, list_lookup_fmap in Hr' by lia.
      destruct (candidatos e !! (j - length E)%nat) as [m|] eqn:Hm; [| done].
      injection Hr' as <-. rewrite fila_de_noticia_url. intros [= Heq].
      by apply (Hprev (j - length E)%nat m ltac:(lia)).
Qed.

Lemma noticia_nueva_se_guarda_testigo :
  esquema_completo (cargar_excel_existente (Libro libro_ejemplo))
  /\ candidatos entorno_ejemplo !! 1%nat = Some noticia_ejemplo
  /\ exists escrito r,
       entrega entorno_ejemplo (Libro libro_ejemplo) = Some escrito
       /\ r ∈ rows escrito
       /\ r !! "url"%string = Some (url noticia_ejemplo)
       /\ r !! "ciudad"%string = Some (ciudad noticia_ejemplo).
Proof.
  assert (Hesq : esquema_completo (cargar_excel_existente (Libro libro_ejemplo)))
    by (apply (bool_decide_unpack _); vm_compute; exact I).
  assert (Hn : candidatos entorno_ejemplo !! 1%nat = Some noticia_ejemplo)
    by (vm_compute; reflexivity).
  assert (Hstore : forall r, r ∈ rows (cargar_excel_existente (Libro libro_ejemplo)) ->
                             r !! "url"%string <> Some (url noticia_ejemplo)).
  { intros r Hr Heq. apply list_elem_of_In in Hr. destruct Hr as [<- | []].
    vm_compute in Heq. discriminate. }
  assert (Hprev : forall j m, (j < 1)%nat -> candidatos entorno_ejemplo !! j = Some m ->
                              url m <> url noticia_ejemplo).
  { intros j m Hj Hm Heq. assert (j = 0%nat) as -> by lia.
    vm_compute in Hm. injection Hm as <-. vm_compute in Heq. discriminate. }
  refine (conj Hesq (conj Hn _)).
  destruct (noticia_nueva_se_guarda entorno_ejemplo (Libro libro_ejemplo) 1 noticia_ejemplo
              Hesq Hn Hstore Hprev)
    as (escrito & r & H1 & H2 & _ & _ & _ & H6 & H7 & _).
  exists escrito, r. auto.
Defined.

(** ** A workbook with other columns *)



(** X15. A workbook read without the city column is brought up to date by
    loading and saving it: the column selection of [guardar_excel] does not
    raise on the loaded frame, and the frame handed to the writer has the six
    columns in their fixed order, every row with the sentinel as city and its
    other five cells as they were read, and nothing else.  The save succeeds
    exactly when the writer does not raise, with what the writer made of
    that frame. *)
Theorem libro_sin_ciudad_se_actualiza (e : Entorno) (df : DataFrame) :
  "ciudad"%string ∉ columns df ->
  (forall c, c ∈ columnas -> c <> "ciudad"%string -> c ∈ columns df) ->
  exists df',
    seleccionar columnas (cargar_excel_existente (Libro df)) = Some df'
    /\ guardar_excel e (cargar_excel_existente (Libro df)) = Libro <$> to_excel e df'
    /\ columns df' = ["fecha"; "titulo"; "fuente"; "ciudad"; "url"; "resumen"]%string
    /\ length (rows df') = length (rows df)
    /\ (forall i r, rows df !! i = Some r ->
          exists r',
            rows df' !! i = Some r'
            /\ r' !! "ciudad"%string = Some (u8 "Sin identificar")
            /\ (forall c, c ∈ columnas -> c <> "ciudad"%string -> r' !! c = r !! c)
            /\ (forall c, c ∉ columnas -> r' !! c = None)).
Proof.
  intros Hno Hcols.
  assert (Hsel : seleccionar columnas (cargar_excel_existente (Libro df)) =
                 Some {| columns := columnas;
                         rows := proyectar columnas
                                   <$> rows (cargar_excel_existente (Libro df)) |}).
  { apply seleccionar_columnas. unfold esquema_completo. apply Forall_forall. intros c Hc.
    unfold cargar_excel_existente. rewrite bool_decide_eq_true_2 by done.
    cbn. rewrite bool_decide_eq_false_2 by done.
    destruct (decide (c = "ciudad"%string)) as [-> | Hne]; [set_solver |].
    apply elem_of_app. left. by apply Hcols. }
  eexists. split; [exact Hsel |].
  split; [unfold guardar_excel; by rewrite Hsel |]. cbn [columns rows].
  split; [done |].
  unfold cargar_excel_existente. rewrite bool_decide_eq_true_2 by done.
  cbn [asignar_columna rows]. split; [by rewrite !length_fmap |].
  intros i r Hi. exists (proyectar columnas (<["ciudad"%string := SIN_IDENTIFICAR]> r)).
  split; [by rewrite !list_lookup_fmap, Hi |]. split; [| split].
  - rewrite proyectar_lookup by (unfold columnas; set_solver). by rewrite lookup_insert_eq.
  - intros c Hc Hne. rewrite proyectar_lookup by done. by rewrite lookup_insert_ne.
  - intros c Hc. unfold proyectar. apply map_lookup_filter_None. right.
    intros v _. done.
Qed.

Lemma libro_sin_ciudad_se_actualiza_testigo :
  ("ciudad"%string ∉ columns libro_antiguo)
  /\ (forall c, c ∈ columnas -> c <> "ciudad"%string -> c ∈ columns libro_antiguo)
  /\ exists df',
       seleccionar columnas (cargar_excel_existente (Libro libro_antiguo)) = Some df'
       /\ columns df' = ["fecha"; "titulo"; "fuente"; "ciudad"; "url"; "resumen"]%string.
Proof.
  assert (H1 : "ciudad"%string ∉ columns libro_antiguo)
    by (apply (bool_decide_unpack _); vm_compute; exact I).
  assert (H2 : forall c, c ∈ columnas -> c <> "ciudad"%string -> c ∈ columns libro_antiguo).
  { intros c Hc Hne. unfold columnas in Hc. cbn [columns libro_antiguo].
    repeat (apply elem_of_cons in Hc as [-> | Hc]); try done; try set_solver. }
  refine (conj H1 (conj H2 _)).
  destruct (libro_sin_ciudad_se_actualiza entorno_ejemplo libro_antiguo H1 H2)
    as (df' & Hs & _ & Hc & _).
  exists df'. split; assumption.
Defined.

Lemma urls_de_nuevos (conocidas : gset str) (l : list Noticia) :
  (list_to_set (url <$> nuevos conocidas l) : gset str)
  = list_to_set (url <$> l) ∖ conocidas.
Proof.
  apply set_eq. intros u.
  rewrite elem_of_difference, !elem_of_list_to_set, !list_elem_of_fmap. split.
  - intros (n & -> & Hn). apply nuevos_elem in Hn as [Hn Hu]. split; [by exists n | done].
  - intros [(n & -> & Hn) Hu].
    destruct (nuevos_cubre conocidas l n Hn) as [Hk | (m & Hm & Heq)]; [done |].
    by exists m.
Qed.

(** X16. The number of records that steps 1 to 3 admit, which a run that
    completes reports as newly added, is the number of different urls among
    the candidates of the run that are in no cell of the url column of the
    loaded frame. *)
Theorem nuevas_agregadas_cuenta_urls (e : Entorno) (a : Archivo) :
  esquema_completo (cargar_excel_existente a) ->
  exists df nuevas,
    combinar e a = Some (df, nuevas)
    /\ length nuevas
       = size (list_to_set (url <$> candidatos e)
               ∖ list_to_set (omap (fun r : gmap string str => r !! "url"%string)
                                (rows (cargar_excel_existente a)))
               : gset str)
    /\ (forall res,
          ejecutar_scraping e a = Some res -> nuevas_agregadas res = length nuevas).
Proof.
  intros Hesq. destruct (combinar_forma e a Hesq) as (cols & _ & Hc).
  eexists _, _. split; [exact Hc |]. split.
  - rewrite <- urls_de_nuevos, size_list_to_set by apply nuevos_NoDup.
    by rewrite length_fmap.
  - intros res Hrun.
    destruct (ejecutar_scraping_cuentas _ _ _ Hrun) as (df & nuevas & Hc' & _ & _ & Hnue).
    rewrite Hc in Hc'. by injection Hc' as <- <-.
Qed.

Lemma nuevas_agregadas_cuenta_urls_testigo :
  esquema_completo (cargar_excel_existente (Libro libro_ejemplo))
  /\ exists df nuevas,
       combinar entorno_ejemplo (Libro libro_ejemplo) = Some (df, nuevas)
       /\ length nuevas = 1%nat.
Proof.
  assert (Hesq : esquema_completo (cargar_excel_existente (Libro libro_ejemplo)))
    by (apply (bool_decide_unpack _); vm_compute; exact I).
  split; [exact Hesq |].
  destruct (nuevas_agregadas_cuenta_urls entorno_ejemplo (Libro libro_ejemplo) Hesq)
    as (df & nuevas & H1 & H2 & _).
  exists df, nuevas. split; [exact H1 |]. rewrite H2. vm_compute. reflexivity.
Defined.
